(** * Simple Background Remover: the upload -> removal -> export pipeline

    A shallow embedding of [src/code_1.py], a Streamlit script.  The script
    is modelled as a computation in a small monad that threads the
    [st.cache_data] store, logs the Streamlit elements it emits, counts the
    invocations of the removal capability and may stop on an uncaught Python
    exception.  Pillow's codecs and the [rembg] library are collaborators of
    the script and are taken as fields of a record; the string and pixel
    operations the script relies on are written out. *)

From Stdlib Require Import ZArith List String Ascii Bool Lia.
Import ListNotations.
Open Scope string_scope.
Open Scope Z_scope.

(** ** Python strings *)

Module PyStr.

(** [c.lower()] on one ASCII character. *)
Definition lower_ascii (c : ascii) : ascii :=
  let n := nat_of_ascii c in
  if andb (Nat.leb 65 n) (Nat.leb n 90) then ascii_of_nat (n + 32) else c.

(** [s.lower()]. *)
Fixpoint lower (s : string) : string :=
  match s with
  | EmptyString => EmptyString
  | String c r => String (lower_ascii c) (lower r)
  end.

(** [len(s)] as a Python int. *)
Definition len (s : string) : Z := Z.of_nat (String.length s).

(** [p.rfind(c)] for a one-character needle: the highest index holding [c],
    or [-1].  [i] is the index of the first character of [p]. *)
Fixpoint rfind_from (p : string) (c : ascii) (i : Z) : Z :=
  match p with
  | EmptyString => -1
  | String a r =>
      let k := rfind_from r c (i + 1) in
      if 0 <=? k then k else if Ascii.eqb a c then i else -1
  end.

Definition rfind (p : string) (c : ascii) : Z := rfind_from p c 0.

(** [p[i:j]] for [0 <= i]; a slice never fails and is clipped to [p]. *)
Definition slice (p : string) (i j : Z) : string :=
  substring (Z.to_nat i) (Z.to_nat (j - i)) p.

(** [p[:j]] and [p[i:]]. *)
Definition slice_to (p : string) (j : Z) : string := slice p 0 j.
Definition slice_from (p : string) (i : Z) : string := slice p i (len p).

(** [s.startswith(t)]. *)
Definition startswith (s t : string) : bool := String.prefix t s.

End PyStr.

(** ** [os.path.splitext] *)

Module OsPath.
Import PyStr.

(** The [while filenameIndex < dotIndex] loop of [genericpath._splitext]:
    [trips] is the number of iterations left, [dotIndex - filenameIndex].
    [Some] is the [return] inside the loop, [None] is falling out of it. *)
Fixpoint skip_leading_dots (p : string) (extsep : ascii) (dotIndex filenameIndex : Z)
    (trips : nat) : option (string * string) :=
  match trips with
  | O => None
  | S k =>
      if negb (String.eqb (slice p filenameIndex (filenameIndex + 1))
                          (String extsep EmptyString))
      then Some (slice_to p dotIndex, slice_from p dotIndex)
      else skip_leading_dots p extsep dotIndex (filenameIndex + 1) k
  end.

(** [genericpath._splitext(p, sep, altsep, extsep)]. *)
Definition _splitext (p : string) (sep : ascii) (altsep : option ascii) (extsep : ascii)
    : string * string :=
  let sepIndex := rfind p sep in
  let sepIndex :=
    match altsep with
    | Some a => Z.max sepIndex (rfind p a)
    | None => sepIndex
    end in
  let dotIndex := rfind p extsep in
  if sepIndex <? dotIndex then
    let filenameIndex := sepIndex + 1 in
    match skip_leading_dots p extsep dotIndex filenameIndex
            (Z.to_nat (dotIndex - filenameIndex)) with
    | Some r => r
    | None => (p, slice_to p 0)
    end
  else (p, slice_to p 0).

(** [posixpath.splitext]. *)
Definition splitext (p : string) : string * string := _splitext p "/" None ".".

End OsPath.

(** ** The download name and MIME type (lines 87, 88 and 108) *)

(** The value of the format [st.selectbox]: an index into its options. *)
Inductive FormatChoice := PNG | JPG.

Definition format_options : list string := ["PNG"; "JPG"].

Definition format_str (c : FormatChoice) : string :=
  match c with PNG => "PNG" | JPG => "JPG" end.

(** [f"bg_removed_{os.path.splitext(uploaded_file.name)[0]}.{download_format.lower()}"] *)
Definition output_filename (name download_format : string) : string :=
  "bg_removed_" ++ fst (OsPath.splitext name) ++ "." ++ PyStr.lower download_format.

(** ['JPEG' if download_format == 'JPG' else 'PNG'] *)
Definition save_format (download_format : string) : string :=
  if String.eqb download_format "JPG" then "JPEG" else "PNG".

(** [f"image/{download_format.lower()}"] *)
Definition mime (download_format : string) : string :=
  "image/" ++ PyStr.lower download_format.

(** [f"Download as {download_format}"] *)
Definition download_label (download_format : string) : string :=
  "Download as " ++ download_format.

(** ** Python exceptions and results *)

(** An instance of [Exception], kept as its [str(e)]: that is all the script
    ever reads from one ([f"...{e}"]).  [BaseException]s that are not
    [Exception]s (interpreter exit, keyboard interrupt) are not modelled. *)
Definition exn := string.

Inductive result (A : Type) : Type :=
| Ok (a : A)
| Raise (e : exn).
Arguments Ok {A} a.
Arguments Raise {A} e.

Definition bytes := list Byte.byte.

(** ** Pillow images *)

Module PIL.

(** The 8-bit modes a PNG or JPEG upload decodes to without a palette.
    Pillow has more (["P"], ["1"], ["CMYK"], ["I;16"], ...), which a PNG or
    JPEG file can also decode to; they are not modelled, and every statement
    about images below is about these four modes. *)
Inductive Mode := L | LA | RGB | RGBA.

Definition mode_str (m : Mode) : string :=
  match m with L => "L" | LA => "LA" | RGB => "RGB" | RGBA => "RGBA" end.

Definition nbands (m : Mode) : nat :=
  match m with L => 1 | LA => 2 | RGB => 3 | RGBA => 4 end%nat.

(** Whether the mode carries an alpha band. *)
Definition has_alpha (m : Mode) : bool :=
  match m with LA | RGBA => true | L | RGB => false end.

(** A pixel is the list of its band values, in band order; [data] is
    row-major, as [list(im.getdata())]. *)
Definition Pixel := list Z.

Record Image := mkImage {
  mode : Mode;
  size : Z * Z;
  data : list Pixel;
}.

Definition UINT8 (x : Z) : Z := x mod 256.

Definition is_uint8 (x : Z) : bool := (0 <=? x) && (x <=? 255).

(** The invariant Pillow maintains on every image object. *)
Definition wf_image (im : Image) : bool :=
  (0 <=? fst (size im)) && (0 <=? snd (size im)) &&
  (Z.of_nat (List.length (data im)) =? fst (size im) * snd (size im)) &&
  forallb (fun px => Nat.eqb (List.length px) (nbands (mode im)) && forallb is_uint8 px)
          (data im).

(** [Image.new(mode, size, color)] *)
Definition new (m : Mode) (sz : Z * Z) (color : Pixel) : Image :=
  mkImage m sz (repeat color (Z.to_nat (fst sz * snd sz))).

(** [im.getchannel(k)], an ["L"] image. *)
Definition getband (im : Image) (k : nat) : Image :=
  mkImage L (size im) (map (fun px => [nth k px 0]) (data im)).

(** [im.split()] *)
Definition split (im : Image) : list Image :=
  map (getband im) (seq 0 (nbands (mode im))).

(** [SHIFTFORDIV255], [DIV255] and [BLEND8] of Pillow's [ImagingUtils.h]. *)
Definition SHIFTFORDIV255 (a : Z) : Z := Z.shiftr (Z.shiftr a 8 + a) 8.
Definition DIV255 (a : Z) : Z := let tmp := a + 128 in SHIFTFORDIV255 tmp.
Definition BLEND8 (mask in1 in2 : Z) : Z := DIV255 (in1 * (255 - mask) + in2 * mask).

(** One pixel of [paste_mask_L]: every band of the destination is blended
    with the same band of the source, weighted by the matte. *)
Definition paste_pixel (out inp : Pixel) (mask : Pixel) : Pixel :=
  let a := nth 0 mask 0 in
  map (fun oi => UINT8 (BLEND8 a (fst oi) (snd oi))) (combine out inp).

Definition size_eqb (a b : Z * Z) : bool :=
  (fst a =? fst b) && (snd a =? snd b).

(** [dest.paste(im, mask=mask)] with an ["L"] mask and no box: the region is
    the whole of [im] at the origin.  Pillow refuses a mask of another size
    than [im]; a destination of another size would be clipped, which the
    script, pasting onto a background of [im.size], never needs: the model
    refuses it as well. *)
Definition paste (dest im mask : Image) : result Image :=
  if size_eqb (size im) (size mask) && size_eqb (size dest) (size im) then
    Ok (mkImage (mode dest) (size dest)
          (map (fun oim => paste_pixel (fst (fst oim)) (snd (fst oim)) (snd oim))
               (combine (combine (data dest) (data im)) (data mask))))
  else Raise "images do not match".

(** One pixel of [im.convert("RGB")]: [l2rgb], [la2rgb], a copy, [rgba2rgb]. *)
Definition convert_RGB_pixel (m : Mode) (px : Pixel) : Pixel :=
  match m with
  | L | LA => let v := nth 0 px 0 in [v; v; v]
  | RGB => px
  | RGBA => [nth 0 px 0; nth 1 px 0; nth 2 px 0]
  end.

(** [im.convert("RGB")] *)
Definition convert_RGB (im : Image) : Image :=
  mkImage RGB (size im) (map (convert_RGB_pixel (mode im)) (data im)).

(** The alpha band of an image, when its mode has one. *)
Definition alpha (im : Image) : option (list Z) :=
  match mode im with
  | LA => Some (map (fun px => nth 1 px 0) (data im))
  | RGBA => Some (map (fun px => nth 3 px 0) (data im))
  | L | RGB => None
  end.

Definition Mode_eq_dec (a b : Mode) : {a = b} + {a <> b}.
Proof. decide equality. Defined.

Definition Image_eq_dec (a b : Image) : {a = b} + {a <> b}.
Proof.
  decide equality.
  - apply (list_eq_dec (list_eq_dec Z.eq_dec)).
  - decide equality; apply Z.eq_dec.
  - apply Mode_eq_dec.
Defined.

End PIL.

Import PIL.

(** ** Collaborators of the script *)

(** Pillow's codecs and the optional [rembg] library.  [rembg_remove] is
    [None] when [from rembg import remove] raises [ImportError].
    [Image_open] stands for opening and reading the file: Pillow's
    [Image.open] reads the pixels lazily, so a truncated file can open and
    fail later; such files are not modelled.  [rembg_remove] returns an image
    (well-formed or not, see [wf_image]) or raises; a return value that is
    no image at all is not modelled. *)
Record Env := mkEnv {
  Image_open : bytes -> result Image;
  Image_save : Image -> string -> option Z -> result bytes;
  rembg_remove : option (Image -> result Image);
}.

(** [REMBG_AVAILABLE], lines 5 to 9. *)
Definition REMBG_AVAILABLE (env : Env) : bool :=
  match rembg_remove env with Some _ => true | None => false end.

(** ** Streamlit elements *)

Inductive Container := Main | Col1 | Col2 | Sidebar.

Inductive Element :=
| set_page_config (page_title page_icon layout : string)
| title (body : string)
| write (body : string)
| file_uploader (label : string) (type : list string) (accept_multiple_files : bool)
| columns (n : Z)
| image (img : Image) (caption : string)
| spinner (text : string)
| selectbox (label : string) (options : list string) (key : string)
| download_button (label : string) (data : bytes) (file_name mime key : string)
| error (body : string)
| info (body : string)
| header (body : string)
| markdown (body : string)
| code (body language : string)
| warning (body : string).

Definition Placed := (Container * Element)%type.

(** ** The script monad *)

(** What [st.cache_data] stores for one key: the returned value and the
    elements the call emitted, which a hit replays. *)
Record Entry := mkEntry {
  value : option Image;
  replayed : list Placed;
}.

(** The key of a memoized call to a one-parameter function: the argument,
    unless the parameter is excluded from hashing. *)
Definition Key := option Image.

Definition Key_eq_dec (a b : Key) : {a = b} + {a <> b}.
Proof. decide equality. apply Image_eq_dec. Defined.

Record World := mkWorld {
  cache : list (Key * Entry);     (* the [st.cache_data] store of the process *)
  elements : list Placed;         (* what this run has put on the page, in order *)
  calls : list Image;             (* the arguments [remove] has been called with *)
}.

Definition M (A : Type) : Type := World -> result A * World.

Definition ret {A} (a : A) : M A := fun w => (Ok a, w).

Definition bind {A B} (m : M A) (k : A -> M B) : M B :=
  fun w =>
    match m w with
    | (Ok a, w') => k a w'
    | (Raise e, w') => (Raise e, w')
    end.

Declare Scope py_scope.
Delimit Scope py_scope with py.
Notation "x <- m ;; k" := (bind m (fun x => k))
  (at level 61, m at next level, right associativity) : py_scope.
Notation "m ;; k" := (bind m (fun _ => k))
  (at level 61, right associativity) : py_scope.
Open Scope py_scope.

(** A library call that returns or raises. *)
Definition lift {A} (r : result A) : M A := fun w => (r, w).

(** [try: body  except Exception as e: handler(e)] *)
Definition try_except {A} (body : M A) (handler : exn -> M A) : M A :=
  fun w =>
    match body w with
    | (Ok a, w') => (Ok a, w')
    | (Raise e, w') => handler e w'
    end.

(** A Streamlit command that draws one element in a container. *)
Definition st (c : Container) (e : Element) : M unit :=
  fun w => (Ok tt, mkWorld (cache w) (elements w ++ [(c, e)]) (calls w)).

Definition log_call (img : Image) : M unit :=
  fun w => (Ok tt, mkWorld (cache w) (elements w) (calls w ++ [img])).

Definition w0 : World := mkWorld [] [] [].

(** ** [st.cache_data] *)

Fixpoint lookup (k : Key) (c : list (Key * Entry)) : option Entry :=
  match c with
  | [] => None
  | (k', e) :: r => if Key_eq_dec k k' then Some e else lookup k r
  end.

(** The key Streamlit hashes for a call: a parameter whose name begins with
    an underscore is left out of it. *)
Definition cache_key (param : string) (arg : Image) : Key :=
  if PyStr.startswith param "_" then None else Some arg.

(** [@st.cache_data] on a one-parameter function [f] whose parameter is named
    [param].  A hit returns the stored value and replays the stored elements
    without running [f]; a miss runs [f], and stores the value it returned
    with the elements it emitted (nothing is stored when [f] raises). *)
Definition cache_data (param : string) (f : Image -> M (option Image))
    (arg : Image) : M (option Image) :=
  fun w =>
    let k := cache_key param arg in
    match lookup k (cache w) with
    | Some en => (Ok (value en), mkWorld (cache w) (elements w ++ replayed en) (calls w))
    | None =>
        match f arg (mkWorld (cache w) [] (calls w)) with
        | (Ok v, w') =>
            (Ok v, mkWorld ((k, mkEntry v (elements w')) :: cache w')
                     (elements w ++ elements w') (calls w'))
        | (Raise e, w') =>
            (Raise e, mkWorld (cache w') (elements w ++ elements w') (calls w'))
        end
    end.

(** ** The script *)

Record UploadedFile := mkUploadedFile {
  name : string;
  content : bytes;
}.

Definition rembg_not_found : string :=
  "`rembg` library not found. Background removal placeholder active.".

(** [remove]: the function imported from [rembg], or the placeholder of
    lines 11 to 15 when the import failed. *)
Definition remove (env : Env) (img_bytes : Image) : M Image :=
  log_call img_bytes ;;
  match rembg_remove env with
  | Some rembg => lift (rembg img_bytes)
  | None =>
      st Main (error rembg_not_found) ;;
      ret img_bytes
  end.

Definition removal_error (e : exn) : string := "Error during background removal: " ++ e.

(** The body of [remove_background_from_bytes], lines 30 to 40. *)
Definition remove_background_from_bytes_body (env : Env) (_image_bytes : Image)
    : M (option Image) :=
  try_except
    (output_bytes <- remove env _image_bytes ;;
     ret (Some output_bytes))
    (fun e =>
       st Main (error (removal_error e)) ;;
       ret None).

(** [remove_background_from_bytes] as the script calls it, under its
    [@st.cache_data] decorator (line 29). *)
Definition remove_background_from_bytes (env : Env) : Image -> M (option Image) :=
  cache_data "_image_bytes" (remove_background_from_bytes_body env).

(** [t[k]] on the tuple [im.split()] returns. *)
Definition tuple_index (t : list Image) (k : nat) : result Image :=
  match nth_error t k with
  | Some x => Ok x
  | None => Raise "tuple index out of range"
  end.

Definition result_bind {A B} (r : result A) (k : A -> result B) : result B :=
  match r with
  | Ok a => k a
  | Raise e => Raise e
  end.

(** Lines 91 to 102: the bytes written to [buf_out]. *)
Definition encode (env : Env) (output_image : Image) (save_format : string)
    : result bytes :=
  if String.eqb save_format "JPEG" then
    if String.eqb (mode_str (mode output_image)) "RGBA" then
      let bg := PIL.new RGB (size output_image) [255; 255; 255] in
      result_bind (tuple_index (PIL.split output_image) 3) (fun mask =>
      result_bind (PIL.paste bg output_image mask) (fun bg =>
      Image_save env bg save_format (Some 95)))
    else
      Image_save env (PIL.convert_RGB output_image) save_format (Some 95)
  else
    Image_save env output_image save_format None.

Definition download_error (e : exn) : string := "Error preparing download: " ++ e.

Definition could_not_process : string :=
  "Could not process the image. Please try another one or check the logs.".

(** Lines 70 to 116, the second column.  [st.image] is modelled as drawing
    its image; Streamlit raising on an image it cannot draw, at line 72 as
    at line 61, is not modelled. *)
Definition show_result (env : Env) (uploaded_file : UploadedFile)
    (format_select : FormatChoice) (output_image : option Image) : M unit :=
  match output_image with
  | Some output_image =>
      st Col2 (write "### Background Removed") ;;
      st Col2 (image output_image "Processed Image") ;;
      st Col2 (write "---") ;;
      st Col2 (write "#### Download Result") ;;
      st Col2 (selectbox "Select download format" format_options "format_select") ;;
      let download_format := format_str format_select in
      let output_filename := output_filename (name uploaded_file) download_format in
      let save_format := save_format download_format in
      try_except
        (buf_out <- lift (encode env output_image save_format) ;;
         st Col2 (download_button (download_label download_format) buf_out
                    output_filename (mime download_format) "download_button"))
        (fun e => st Col2 (error (download_error e)))
  | None =>
      st Col2 (error could_not_process)
  end.

Definition libraries_used (env : Env) : string :=
  "
- **streamlit**: Web App Framework
- **Pillow**: Image Processing
- **rembg**: Background Removal Engine " ++
  (if REMBG_AVAILABLE env then "**(Using Example)**"
   else "**(`rembg` not found - install or replace logic)**") ++ "
- **io, os**: Standard Libraries
".

Definition rembg_warning : string :=
  "`rembg` not found. Install it or replace the background removal function in the code.".

(** Lines 121 to 136. *)
Definition sidebar (env : Env) : M unit :=
  st Sidebar (header "Info") ;;
  st Sidebar (markdown "
This app uses Python and Streamlit to remove backgrounds from images.
") ;;
  st Sidebar (header "Libraries Used") ;;
  st Sidebar (markdown (libraries_used env)) ;;
  st Sidebar (header "Installation") ;;
  st Sidebar (code "pip install streamlit pillow rembg" "bash") ;;
  if negb (REMBG_AVAILABLE env) then st Sidebar (warning rembg_warning) else ret tt.

(** Lines 53 to 119. *)
Definition page (env : Env) (uploaded_file : option UploadedFile)
    (format_select : FormatChoice) : M unit :=
  match uploaded_file with
  | Some uploaded_file =>
      input_image <- lift (Image_open env (content uploaded_file)) ;;
      st Main (columns 2) ;;
      st Col1 (write "### Original Image") ;;
      st Col1 (image input_image "Your Upload") ;;
      st Main (spinner "Removing background... Please wait.") ;;
      output_image <- remove_background_from_bytes env input_image ;;
      show_result env uploaded_file format_select output_image
  | None =>
      st Main (info "☝️ Upload an image file to get started.")
  end.

(** One run of the script, top to bottom: Streamlit reruns it on every
    interaction, with the uploader's file and the selectbox's value as they
    stand.  [uploaded_file] is what [st.file_uploader] returned: the widget
    itself, with its [type] list, decides which files it hands over, and is
    not modelled.  [Raise] is an exception no handler of the script caught. *)
Definition script (env : Env) (uploaded_file : option UploadedFile)
    (format_select : FormatChoice) : M unit :=
  st Main (set_page_config "Simple Background Remover" "✂️" "centered") ;;
  st Main (title "✂️ Simple Background Remover") ;;
  st Main (write "Upload an image (JPG, JPEG, or PNG) to remove its background.") ;;
  st Main (write "---") ;;
  st Main (file_uploader "Choose an image..." ["jpg"; "jpeg"; "png"] false) ;;
  page env uploaded_file format_select ;;
  sidebar env.

(** A rerun starts with an empty page; the cache and the call log persist. *)
Definition rerun (w : World) : World := mkWorld (cache w) [] (calls w).

(** The worlds a process can be in when a run starts. *)
Inductive Reachable (env : Env) : World -> Prop :=
| Reachable_start : Reachable env w0
| Reachable_run w uploaded_file format_select :
    Reachable env w ->
    Reachable env (rerun (snd (script env uploaded_file format_select w))).

(** What is on the page. *)
Definition shows (w : World) (c : Container) (e : Element) : Prop := In (c, e) (elements w).

Definition is_download_button (p : Placed) : bool :=
  match snd p with download_button _ _ _ _ _ => true | _ => false end.

Definition is_error (p : Placed) : bool :=
  match snd p with error _ => true | _ => false end.

Definition is_processed_image (p : Placed) : bool :=
  match p with (Col2, image _ "Processed Image") => true | _ => false end.

(** ** Derived descriptions used in the statements *)

(** The lowercase extension of a download format. *)
Definition format_extension (c : FormatChoice) : string :=
  match c with PNG => "png" | JPG => "jpg" end.

(** Whether a character occurs in a string. *)
Fixpoint occurs (c : ascii) (s : string) : bool :=
  match s with
  | EmptyString => false
  | String a r => Ascii.eqb a c || occurs c r
  end.

(** What the body of the adapter returns and emits on an input. *)
Definition outcome (env : Env) (img : Image) : option Image * list Placed :=
  match rembg_remove env with
  | Some rembg =>
      match rembg img with
      | Ok out => (Some out, [])
      | Raise e => (None, [(Main, error (removal_error e))])
      end
  | None => (Some img, [(Main, error rembg_not_found)])
  end.

(** What the memoized adapter hands back in a world: the stored entry of the
    one key there is, or the outcome on the input. *)
Definition served (env : Env) (img : Image) (w : World) : option Image * list Placed :=
  match lookup None (cache w) with
  | Some en => (value en, replayed en)
  | None => outcome env img
  end.

Definition next_cache (env : Env) (img : Image) (w : World) : list (Key * Entry) :=
  match lookup None (cache w) with
  | Some _ => cache w
  | None => (None, mkEntry (fst (outcome env img)) (snd (outcome env img))) :: cache w
  end.

Definition next_calls (img : Image) (w : World) : list Image :=
  match lookup None (cache w) with
  | Some _ => calls w
  | None => calls w ++ [img]
  end.

Definition banner : list Placed :=
  [ (Main, set_page_config "Simple Background Remover" "✂️" "centered");
    (Main, title "✂️ Simple Background Remover");
    (Main, write "Upload an image (JPG, JPEG, or PNG) to remove its background.");
    (Main, write "---");
    (Main, file_uploader "Choose an image..." ["jpg"; "jpeg"; "png"] false) ].

Definition original_elements (img : Image) : list Placed :=
  [ (Main, columns 2);
    (Col1, write "### Original Image");
    (Col1, image img "Your Upload");
    (Main, spinner "Removing background... Please wait.") ].

Definition download_elements (env : Env) (u : UploadedFile) (c : FormatChoice)
    (out : Image) : list Placed :=
  match encode env out (save_format (format_str c)) with
  | Ok buf =>
      [ (Col2, download_button (download_label (format_str c)) buf
                 (output_filename (name u) (format_str c)) (mime (format_str c))
                 "download_button") ]
  | Raise e => [ (Col2, error (download_error e)) ]
  end.

Definition result_elements (env : Env) (u : UploadedFile) (c : FormatChoice)
    (v : option Image) : list Placed :=
  match v with
  | Some out =>
      [ (Col2, write "### Background Removed");
        (Col2, image out "Processed Image");
        (Col2, write "---");
        (Col2, write "#### Download Result");
        (Col2, selectbox "Select download format" format_options "format_select") ]
      ++ download_elements env u c out
  | None => [ (Col2, error could_not_process) ]
  end.

Definition sidebar_elements (env : Env) : list Placed :=
  [ (Sidebar, header "Info");
    (Sidebar, markdown "
This app uses Python and Streamlit to remove backgrounds from images.
");
    (Sidebar, header "Libraries Used");
    (Sidebar, markdown (libraries_used env));
    (Sidebar, header "Installation");
    (Sidebar, code "pip install streamlit pillow rembg" "bash") ]
  ++ (if REMBG_AVAILABLE env then [] else [ (Sidebar, warning rembg_warning) ]).

(** The invariant of the worlds a run starts in: every entry of the store
    was computed by the adapter's body on some earlier input, and the page
    is empty. *)
Definition cache_inv (env : Env) (w : World) : Prop :=
  elements w = [] /\
  forall en, lookup None (cache w) = Some en ->
             exists img, value en = fst (outcome env img) /\
                         replayed en = snd (outcome env img).

(** What the lossy branch makes of an ["RGBA"] pixel: each colour band
    blended onto 255 with the pixel's alpha as the matte. *)
Definition flatten_pixel (px : Pixel) : Pixel :=
  let a := nth 3 px 0 in
  map (fun fg => UINT8 (BLEND8 a 255 fg)) (firstn 3 px).

Definition flattened (im : Image) : Image :=
  mkImage RGB (size im) (map flatten_pixel (data im)).

(** ** Test doubles for the collaborators *)

Module Fixture.

Definition Z_of_byte (b : Byte.byte) : Z := Z.of_N (Byte.to_N b).

Definition byte_of_Z (x : Z) : Byte.byte :=
  match Byte.of_N (Z.to_N (x mod 256)) with
  | Some b => b
  | None => Byte.x00
  end.

(** A decoder of one-pixel images: two bytes are a grey pixel with alpha,
    three an RGB pixel, four an RGBA pixel; anything else is not an image. *)
Definition toy_open (b : bytes) : result Image :=
  match b with
  | [v; a] => Ok (mkImage LA (1, 1) [[Z_of_byte v; Z_of_byte a]])
  | [r; g; bl] => Ok (mkImage RGB (1, 1) [[Z_of_byte r; Z_of_byte g; Z_of_byte bl]])
  | [r; g; bl; a] =>
      Ok (mkImage RGBA (1, 1) [[Z_of_byte r; Z_of_byte g; Z_of_byte bl; Z_of_byte a]])
  | _ => Raise "cannot identify image file"
  end.

(** An encoder that writes the band values out, whatever the format. *)
Definition toy_save (im : Image) (format : string) (quality : option Z) : result bytes :=
  Ok (map byte_of_Z (List.concat (data im))).

(** An encoder that always fails. *)
Definition broken_save (im : Image) (format : string) (quality : option Z) : result bytes :=
  Raise "encoder error".

(** A removal capability: a pixel stays opaque when its first band is at
    least 128 and becomes transparent otherwise. *)
Definition toy_rembg (im : Image) : result Image :=
  Ok (mkImage RGBA (size im)
        (map (fun px => [nth 0 px 0; nth 1 px 0; nth 2 px 0;
                         if 128 <=? nth 0 px 0 then 255 else 0])
             (data (convert_RGB im)))).

(** A removal capability that always fails. *)
Definition failing_rembg (im : Image) : result Image := Raise "model not loaded".

Definition env_rembg : Env := mkEnv toy_open toy_save (Some toy_rembg).
Definition env_failing : Env := mkEnv toy_open toy_save (Some failing_rembg).
Definition env_placeholder : Env := mkEnv toy_open toy_save None.
Definition env_broken_save : Env := mkEnv toy_open broken_save (Some toy_rembg).

Definition upload_red : UploadedFile :=
  mkUploadedFile "red.png" [Byte.xc8; Byte.x0a; Byte.x0a].
Definition upload_blue : UploadedFile :=
  mkUploadedFile "blue.jpg" [Byte.x0a; Byte.x0a; Byte.xc8].
(** A text file renamed [.png]: the bytes of [hello]. *)
Definition upload_text : UploadedFile :=
  mkUploadedFile "notes.png" [Byte.x68; Byte.x65; Byte.x6c; Byte.x6c; Byte.x6f].
(** A grey image with alpha whose one pixel is black and fully transparent. *)
Definition upload_clear : UploadedFile :=
  mkUploadedFile "clear.png" [Byte.x00; Byte.x00].

Definition img_red : Image := mkImage RGB (1, 1) [[200; 10; 10]].
Definition img_blue : Image := mkImage RGB (1, 1) [[10; 10; 200]].
Definition img_clear : Image := mkImage LA (1, 1) [[0; 0]].
Definition img_cutout : Image := mkImage RGBA (1, 1) [[200; 10; 10; 255]].

End Fixture.

(** ** Further descriptions and samples *)

(** Whether a string is made of dots only. *)
Fixpoint only_dots (s : string) : bool :=
  match s with
  | EmptyString => true
  | String a r => Ascii.eqb a "." && only_dots r
  end.

Definition is_selectbox (p : Placed) : bool :=
  match snd p with selectbox _ _ _ => true | _ => false end.

Definition is_sidebar_warning (p : Placed) : bool :=
  match p with (Sidebar, warning _) => true | _ => false end.

Definition is_could_not_process (p : Placed) : bool :=
  match p with
  | (Col2, error msg) => String.eqb msg could_not_process
  | _ => false
  end.

(** The state of a process between runs: nothing stored and [remove] never
    called, or one entry, under the one key, holding what the body of the
    adapter made of the one image [remove] was ever called with, a decoded
    upload. *)
Definition process_inv (env : Env) (w : World) : Prop :=
  elements w = [] /\
  ((cache w = [] /\ calls w = []) \/
   exists u img v els,
     Image_open env (content u) = Ok img /\
     remove_background_from_bytes_body env img w0
       = (Ok v, mkWorld [] els [img]) /\
     cache w = [(None, mkEntry v els)] /\
     calls w = [img]).

Module Sample.

(** A half transparent red pixel beside an opaque and a clear one. *)
Definition img_glass : Image :=
  mkImage RGBA (3, 1) [[200; 10; 10; 128]; [1; 2; 3; 255]; [9; 9; 9; 0]].

Definition world_after_red : World :=
  rerun (snd (script Fixture.env_rembg (Some Fixture.upload_red) PNG w0)).

Definition world_after_failure : World :=
  rerun (snd (script Fixture.env_failing (Some Fixture.upload_red) PNG w0)).





End Sample.

(** * Strings and [os.path.splitext] *)

Lemma substring_0_0 (p : string) : substring 0 0 p = "".
Proof. destruct p; reflexivity. Qed.



Lemma rfind_from_range (p : string) (c : ascii) (i : Z) :
  0 <= i ->
  PyStr.rfind_from p c i = -1 \/ i <= PyStr.rfind_from p c i < i + PyStr.len p.
Proof.
  revert i; induction p as [|a p IH]; intros i Hi; simpl.
  - left; reflexivity.
  - unfold PyStr.len in *. simpl String.length.
    destruct (IH (i + 1) ltac:(lia)) as [E | E].
    + rewrite E. simpl. destruct (Ascii.eqb a c); [right | left]; lia.
    + destruct (0 <=? PyStr.rfind_from p c (i + 1)) eqn:Hk.
      * right. lia.
      * apply Z.leb_gt in Hk. lia.
Qed.

Lemma rfind_range (p : string) (c : ascii) :
  PyStr.rfind p c = -1 \/ 0 <= PyStr.rfind p c < PyStr.len p.
Proof. apply (rfind_from_range p c 0). lia. Qed.

Lemma rfind_from_absent (p : string) (c : ascii) (i : Z) :
  occurs c p = false -> PyStr.rfind_from p c i = -1.
Proof.
  revert i; induction p as [|a p IH]; intros i H; simpl in *.
  - reflexivity.
  - apply orb_false_iff in H as [Ha Hp]. rewrite (IH _ Hp), Ha. reflexivity.
Qed.

Lemma rfind_from_last (base ext : string) (c : ascii) (i : Z) :
  0 <= i -> occurs c ext = false ->
  PyStr.rfind_from (base ++ String c ext) c i = i + PyStr.len base.
Proof.
  revert i; induction base as [|a base IH]; intros i Hi He; simpl.
  - rewrite (rfind_from_absent _ _ _ He). simpl. rewrite Ascii.eqb_refl.
    unfold PyStr.len; simpl; lia.
  - rewrite IH by (auto; lia).
    unfold PyStr.len; simpl String.length.
    destruct (0 <=? i + 1 + Z.of_nat (String.length base)) eqn:Hk.
    + lia.
    + apply Z.leb_gt in Hk. lia.
Qed.

Lemma occurs_app (c : ascii) (s t : string) :
  occurs c (s ++ t) = occurs c s || occurs c t.
Proof.
  induction s as [|a s IH]; simpl; [reflexivity|].
  rewrite IH, orb_assoc. reflexivity.
Qed.

Lemma substring_prefix_app (s t : string) :
  substring 0 (String.length s) (s ++ t) = s.
Proof.
  induction s as [|a s IH]; simpl.
  - apply substring_0_0.
  - f_equal. exact IH.
Qed.

Lemma substring_suffix_app (s t : string) :
  substring (String.length s) (String.length t) (s ++ t) = t.
Proof.
  induction s as [|a s IH]; simpl.
  - induction t as [|b t IHt]; simpl; [reflexivity | f_equal; exact IHt].
  - exact IH.
Qed.

Lemma length_app (s t : string) :
  String.length (s ++ t) = (String.length s + String.length t)%nat.
Proof. induction s as [|a s IH]; simpl; [reflexivity | f_equal; exact IH]. Qed.



(** A name made of a base that begins with a character other than a dot,
    a dot, and an extension that holds no dot, and no directory separator
    anywhere, splits at that dot. *)
Lemma splitext_base_ext (c : ascii) (base ext : string) :
  c <> "."%char ->
  occurs "/" (String c base) = false ->
  occurs "/" ext = false ->
  occurs "." ext = false ->
  OsPath.splitext (String c base ++ "." ++ ext) = (String c base, "." ++ ext).
Proof.
  intros Hc Hb Hs He.
  set (b := String c base). set (p := b ++ "." ++ ext).
  assert (Hdot : PyStr.rfind p "." = PyStr.len b).
  { unfold PyStr.rfind, p. change ("." ++ ext) with (String "." ext).
    rewrite rfind_from_last by (auto; lia). lia. }
  assert (Hsep : PyStr.rfind p "/" = -1).
  { unfold PyStr.rfind, p. apply rfind_from_absent.
    rewrite occurs_app. unfold b. rewrite Hb. simpl. exact Hs. }
  unfold OsPath.splitext, OsPath._splitext. fold p.
  rewrite Hdot, Hsep.
  assert (Hlen : PyStr.len b = Z.of_nat (S (String.length base))) by reflexivity.
  destruct (-1 <? PyStr.len b) eqn:Hlt; [|apply Z.ltb_ge in Hlt; lia].
  replace (Z.to_nat (PyStr.len b - (-1 + 1))) with (S (String.length base)) by lia.
  simpl OsPath.skip_leading_dots.
  destruct (c =? ".")%char eqn:Hcd; [apply Ascii.eqb_eq in Hcd; contradiction|].
  simpl negb. cbv iota.
  f_equal.
  - unfold PyStr.slice_to, PyStr.slice, p.
    replace (Z.to_nat (PyStr.len b - 0)) with (String.length b) by (unfold PyStr.len; lia).
    apply substring_prefix_app.
  - unfold PyStr.slice_from, PyStr.slice, p.
    generalize ("." ++ ext); intros t.
    replace (Z.to_nat (PyStr.len b)) with (String.length b) by (unfold PyStr.len; lia).
    replace (Z.to_nat (PyStr.len (b ++ t) - PyStr.len b)) with (String.length t).
    + apply substring_suffix_app.
    + unfold PyStr.len. rewrite length_app. lia.
Qed.

Example splitext_photo : OsPath.splitext "photo.jpeg" = ("photo", ".jpeg").
Proof. reflexivity. Qed.

Example splitext_hidden : OsPath.splitext ".bashrc" = (".bashrc", "").
Proof. reflexivity. Qed.

Example splitext_two_dots : OsPath.splitext "dir.d/a.tar.gz" = ("dir.d/a.tar", ".gz").
Proof. reflexivity. Qed.

Example splitext_no_dot_in_name : OsPath.splitext "dir.d/readme" = ("dir.d/readme", "").
Proof. reflexivity. Qed.

Example output_filename_upper : output_filename "Holiday.Photo.PNG" "JPG" = "bg_removed_Holiday.Photo.jpg".
Proof. reflexivity. Qed.

(** * Runs of the script *)

Lemma body_spec (env : Env) (img : Image) (w : World) :
  remove_background_from_bytes_body env img w
  = (Ok (fst (outcome env img)),
     mkWorld (cache w) (elements w ++ snd (outcome env img)) (calls w ++ [img])).
Proof.
  unfold remove_background_from_bytes_body, remove, outcome, try_except, bind,
    log_call, lift, st, ret.
  destruct (rembg_remove env) as [f|]; simpl.
  - destruct (f img); simpl; rewrite ?app_nil_r; reflexivity.
  - reflexivity.
Qed.

Lemma cache_key_adapter (img : Image) : cache_key "_image_bytes" img = None.
Proof. reflexivity. Qed.

Lemma adapter_spec (env : Env) (img : Image) (w : World) :
  remove_background_from_bytes env img w
  = (Ok (fst (served env img w)),
     mkWorld (next_cache env img w) (elements w ++ snd (served env img w))
       (next_calls img w)).
Proof.
  unfold remove_background_from_bytes, cache_data, served, next_cache, next_calls.
  rewrite cache_key_adapter.
  destruct (lookup None (cache w)) as [en|]; [reflexivity|].
  rewrite body_spec. simpl. reflexivity.
Qed.

Lemma st_spec (c : Container) (e : Element) (w : World) :
  st c e w = (Ok tt, mkWorld (cache w) (elements w ++ [(c, e)]) (calls w)).
Proof. reflexivity. Qed.

Lemma bind_st {B} (c : Container) (e : Element) (k : unit -> M B) (w : World) :
  bind (st c e) k w = k tt (mkWorld (cache w) (elements w ++ [(c, e)]) (calls w)).
Proof. reflexivity. Qed.

Lemma sidebar_spec (env : Env) (w : World) :
  sidebar env w
  = (Ok tt, mkWorld (cache w) (elements w ++ sidebar_elements env) (calls w)).
Proof.
  unfold sidebar, sidebar_elements.
  repeat rewrite bind_st. cbn [cache elements calls].
  destruct (REMBG_AVAILABLE env); cbn [negb]; unfold ret; rewrite ?st_spec;
    cbn [cache elements calls]; repeat rewrite <- app_assoc; reflexivity.
Qed.

Lemma show_result_spec (env : Env) (u : UploadedFile) (c : FormatChoice)
    (v : option Image) (w : World) :
  show_result env u c v w
  = (Ok tt, mkWorld (cache w) (elements w ++ result_elements env u c v) (calls w)).
Proof.
  unfold show_result, result_elements, download_elements.
  destruct v as [out|]; [|reflexivity].
  repeat rewrite bind_st. cbn [cache elements calls].
  unfold try_except, bind, lift.
  destruct (encode env out (save_format (format_str c))) as [buf|e];
    rewrite st_spec; cbn [cache elements calls];
    repeat rewrite <- app_assoc; reflexivity.
Qed.

Lemma page_spec (env : Env) (uf : option UploadedFile) (c : FormatChoice) (w : World) :
  page env uf c w
  = match uf with
    | None =>
        (Ok tt, mkWorld (cache w)
                  (elements w ++ [(Main, info "☝️ Upload an image file to get started.")])
                  (calls w))
    | Some u =>
        match Image_open env (content u) with
        | Raise e => (Raise e, w)
        | Ok img =>
            (Ok tt,
             mkWorld (next_cache env img w)
               (elements w ++ original_elements img ++ snd (served env img w)
                  ++ result_elements env u c (fst (served env img w)))
               (next_calls img w))
        end
    end.
Proof.
  unfold page. destruct uf as [u|]; [|reflexivity].
  unfold bind at 1. unfold lift at 1.
  destruct (Image_open env (content u)) as [img|e]; [|reflexivity].
  repeat rewrite bind_st. cbn [cache elements calls].
  unfold bind. rewrite adapter_spec. rewrite show_result_spec.
  unfold served, next_cache, next_calls, original_elements.
  cbn [cache elements calls].
  repeat rewrite <- app_assoc. reflexivity.
Qed.

(** A run of the script, case by case. *)
Lemma script_spec (env : Env) (uf : option UploadedFile) (c : FormatChoice) (w : World) :
  script env uf c w
  = match uf with
    | None =>
        (Ok tt, mkWorld (cache w)
                  (elements w ++ banner
                     ++ [(Main, info "☝️ Upload an image file to get started.")]
                     ++ sidebar_elements env)
                  (calls w))
    | Some u =>
        match Image_open env (content u) with
        | Raise e => (Raise e, mkWorld (cache w) (elements w ++ banner) (calls w))
        | Ok img =>
            (Ok tt,
             mkWorld (next_cache env img w)
               (elements w ++ banner ++ original_elements img ++ snd (served env img w)
                  ++ result_elements env u c (fst (served env img w))
                  ++ sidebar_elements env)
               (next_calls img w))
        end
    end.
Proof.
  unfold script. repeat rewrite bind_st. cbn [cache elements calls].
  unfold bind. rewrite page_spec.
  destruct uf as [u|].
  - destruct (Image_open env (content u)) as [img|e].
    + rewrite sidebar_spec. unfold served, next_cache, next_calls, banner.
      cbn [cache elements calls]. repeat rewrite <- app_assoc. reflexivity.
    + unfold banner. repeat rewrite <- app_assoc. reflexivity.
  - rewrite sidebar_spec. unfold banner. cbn [cache elements calls].
    repeat rewrite <- app_assoc. reflexivity.
Qed.

(** What the second column draws after the selectbox: the download button
    with the encoded bytes, the derived name and MIME type, or the error of
    the export. *)
Lemma show_result_download (env : Env) (u : UploadedFile) (c : FormatChoice)
    (out : Image) (w : World) :
  match encode env out (save_format (format_str c)) with
  | Ok buf =>
      shows (snd (show_result env u c (Some out) w)) Col2
        (download_button ("Download as " ++ format_str c) buf
           ("bg_removed_" ++ fst (OsPath.splitext (name u)) ++ "." ++ format_extension c)
           ("image/" ++ format_extension c) "download_button")
  | Raise e =>
      shows (snd (show_result env u c (Some out) w)) Col2
        (error ("Error preparing download: " ++ e))
  end.
Proof.
  rewrite show_result_spec. unfold shows, result_elements, download_elements.
  cbn [snd elements].
  destruct (encode env out (save_format (format_str c))) as [buf|e];
    rewrite !in_app_iff; right; right; left; destruct c; reflexivity.
Qed.


(** C9: the MIME type handed to the download button with the exported bytes
    is [image/] followed by the lowercase extension of the chosen format:
    [image/png] for PNG and [image/jpg] for JPG. *)
Theorem mime_derivation :
  (forall c, mime (format_str c) = "image/" ++ format_extension c) /\
  mime (format_str PNG) = "image/png" /\
  mime (format_str JPG) = "image/jpg" /\
  (forall env u c out w,
     match encode env out (save_format (format_str c)) with
     | Ok buf =>
         exists label file_name key,
           shows (snd (show_result env u c (Some out) w)) Col2
             (download_button label buf file_name ("image/" ++ format_extension c) key)
     | Raise _ => True
     end).
Proof.
  repeat split.
  - intros [|]; reflexivity.
  - intros env u c out w. pose proof (show_result_download env u c out w) as H.
    destruct (encode env out (save_format (format_str c))); [|exact I].
    do 3 eexists. exact H.
Qed.

(** ** The cache between runs *)

Lemma lookup_head (k : Key) (en : Entry) (c : list (Key * Entry)) :
  lookup k ((k, en) :: c) = Some en.
Proof. simpl. destruct (Key_eq_dec k k); [reflexivity | contradiction]. Qed.

Lemma next_cache_inv (env : Env) (img : Image) (w : World) (en : Entry) :
  (forall en, lookup None (cache w) = Some en ->
              exists img, value en = fst (outcome env img) /\
                          replayed en = snd (outcome env img)) ->
  lookup None (next_cache env img w) = Some en ->
  exists img, value en = fst (outcome env img) /\ replayed en = snd (outcome env img).
Proof.
  intros H. unfold next_cache.
  destruct (lookup None (cache w)) as [en'|] eqn:E.
  - rewrite E. intros [= <-]. apply H. reflexivity.
  - rewrite lookup_head. intros [= <-]. exists img. split; reflexivity.
Qed.

Lemma reachable_inv (env : Env) (w : World) : Reachable env w -> cache_inv env w.
Proof.
  induction 1 as [|w uf c _ [_ IH]].
  - split; [reflexivity | discriminate].
  - split; [reflexivity|].
    rewrite script_spec. intros en.
    destruct uf as [u|]; [destruct (Image_open env (content u)) as [img|e]|];
      cbn [rerun snd cache]; auto.
    apply next_cache_inv. exact IH.
Qed.

(** What a reachable store replays is at most one error element. *)
Lemma served_elements (env : Env) (img : Image) (w : World) :
  cache_inv env w ->
  snd (served env img w) = [] \/ exists msg, snd (served env img w) = [(Main, error msg)].
Proof.
  intros [_ H]. unfold served.
  assert (Ho : forall i, snd (outcome env i) = [] \/
                         exists msg, snd (outcome env i) = [(Main, error msg)]).
  { intros i. unfold outcome. destruct (rembg_remove env) as [f|].
    - destruct (f i); simpl; eauto.
    - simpl; eauto. }
  destruct (lookup None (cache w)) as [en|] eqn:E.
  - destruct (H en eq_refl) as (i & _ & Hr). simpl. rewrite Hr. apply Ho.
  - apply Ho.
Qed.

(** The value the memoized adapter returns depends on the store alone. *)
Lemma adapter_value (env : Env) (img : Image) (w : World) :
  fst (remove_background_from_bytes env img w) = Ok (fst (served env img w)).
Proof. rewrite adapter_spec. reflexivity. Qed.

(** A run with a capability that raises: the failure is reported twice, by
    the adapter and by the page, and no processed image is shown. *)
Example failing_capability_run :
  let r := script Fixture.env_failing (Some Fixture.upload_red) PNG w0 in
  fst r = Ok tt /\
  filter is_error (elements (snd r))
  = [ (Main, error "Error during background removal: model not loaded");
      (Col2, error could_not_process) ] /\
  filter is_processed_image (elements (snd r)) = [] /\
  calls (snd r) = [Fixture.img_red].
Proof. cbv zeta. rewrite script_spec. repeat split. Qed.

(** A rerun on the same upload replays the stored error and calls nothing. *)
Example failing_capability_rerun :
  let w1 := rerun (snd (script Fixture.env_failing (Some Fixture.upload_red) PNG w0)) in
  let r := script Fixture.env_failing (Some Fixture.upload_red) JPG w1 in
  filter is_error (elements (snd r))
  = [ (Main, error "Error during background removal: model not loaded");
      (Col2, error could_not_process) ] /\
  calls (snd r) = [Fixture.img_red].
Proof. cbv zeta. rewrite !script_spec. split; reflexivity. Qed.

(** * The removal adapter and its cache *)

(** Two calls in a row return the same value and the second one never
    reaches [remove], whatever the two inputs are. *)
Lemma second_call_is_a_hit (env : Env) (a b : Image) (w : World) :
  let r1 := remove_background_from_bytes env a w in
  let r2 := remove_background_from_bytes env b (snd r1) in
  fst r2 = fst r1 /\ calls (snd r2) = calls (snd r1) /\
  (calls (snd r1) = calls w \/ calls (snd r1) = (calls w ++ [a])%list).
Proof.
  cbv zeta. rewrite !adapter_spec. cbn [fst snd].
  unfold served, next_cache, next_calls. cbn [cache calls elements].
  destruct (lookup None (cache w)) as [en|] eqn:E.
  - rewrite E. auto.
  - rewrite lookup_head. cbn [value]. auto.
Qed.

(** C1: the store of [remove_background_from_bytes] has one key for every
    input, because its only parameter, [_image_bytes], is left out of the
    hashed key.  A repeated input is served from the store without a second
    call of [remove]; so is a different input: after the red upload, the
    blue one is handed the red cutout, not the result of its own bytes. *)
Theorem distinct_input_served_from_cache :
  (forall env a b w,
     let r1 := remove_background_from_bytes env a w in
     let r2 := remove_background_from_bytes env b (snd r1) in
     fst r2 = fst r1 /\ calls (snd r2) = calls (snd r1)) /\
  (let r1 := remove_background_from_bytes Fixture.env_rembg Fixture.img_red w0 in
   let r2 := remove_background_from_bytes Fixture.env_rembg Fixture.img_blue (snd r1) in
   Fixture.img_red <> Fixture.img_blue /\
   fst r1 = Ok (Some (mkImage RGBA (1, 1) [[200; 10; 10; 255]])) /\
   fst r2 = Ok (Some (mkImage RGBA (1, 1) [[200; 10; 10; 255]])) /\
   fst (remove_background_from_bytes_body Fixture.env_rembg Fixture.img_blue w0)
     = Ok (Some (mkImage RGBA (1, 1) [[10; 10; 200; 0]])) /\
   calls (snd r2) = [Fixture.img_red]).
Proof.
  split.
  - intros env a b w. pose proof (second_call_is_a_hit env a b w) as H.
    cbv zeta in *. tauto.
  - cbv zeta. repeat split; try reflexivity. discriminate.
Qed.



(** * Undecodable uploads *)

(** C2: a text file renamed [.png] makes [Image.open] raise, and no handler
    of the script catches it: the run stops at line 55 with that exception,
    having emitted no error element of its own and no sidebar. *)
Theorem undecodable_upload_escapes :
  Image_open Fixture.env_rembg (content Fixture.upload_text)
    = Raise "cannot identify image file" /\
  script Fixture.env_rembg (Some Fixture.upload_text) PNG w0
    = (Raise "cannot identify image file", mkWorld [] banner []) /\
  filter is_error banner = [] /\
  (forall env u c w,
     match Image_open env (content u) with
     | Raise e =>
         script env (Some u) c w
         = (Raise e, mkWorld (cache w) (elements w ++ banner) (calls w))
     | Ok _ => fst (script env (Some u) c w) = Ok tt
     end).
Proof.
  repeat split.
  intros env u c w. rewrite script_spec.
  destruct (Image_open env (content u)); reflexivity.
Qed.

(** * The placeholder *)

(** The placeholder [remove] reports the missing library and returns its
    argument. *)
Lemma placeholder_is_identity (env : Env) (img : Image) (w : World) :
  rembg_remove env = None ->
  remove env img w
  = (Ok img, mkWorld (cache w) (elements w ++ [(Main, error rembg_not_found)])
               (calls w ++ [img])).
Proof. intros H. unfold remove. rewrite H. reflexivity. Qed.

(** With the placeholder and an empty store, the processed image handed to
    the page is the decoded upload. *)
Lemma placeholder_first_run (env : Env) (img : Image) (w : World) :
  rembg_remove env = None -> cache w = [] ->
  fst (remove_background_from_bytes env img w) = Ok (Some img).
Proof.
  intros H Hc. rewrite adapter_value. unfold served, outcome. rewrite Hc, H.
  reflexivity.
Qed.

(** C10: the placeholder is the identity, so the first upload is shown back
    as its own result; the store being keyed on nothing, a second, different
    upload in the same process is shown the first upload as its result. *)
Theorem placeholder_output_is_first_upload :
  let w1 := rerun (snd (script Fixture.env_placeholder (Some Fixture.upload_red) PNG w0)) in
  let w2 := snd (script Fixture.env_placeholder (Some Fixture.upload_blue) PNG w1) in
  fst (remove Fixture.env_placeholder Fixture.img_blue w0) = Ok Fixture.img_blue /\
  Image_open Fixture.env_placeholder (content Fixture.upload_red) = Ok Fixture.img_red /\
  Image_open Fixture.env_placeholder (content Fixture.upload_blue) = Ok Fixture.img_blue /\
  Fixture.img_red <> Fixture.img_blue /\
  filter is_processed_image
    (elements (snd (script Fixture.env_placeholder (Some Fixture.upload_red) PNG w0)))
    = [(Col2, image Fixture.img_red "Processed Image")] /\
  In (Col1, image Fixture.img_blue "Your Upload") (elements w2) /\
  filter is_processed_image (elements w2) = [(Col2, image Fixture.img_red "Processed Image")].
Proof.
  cbv zeta. rewrite !script_spec.
  repeat split; try reflexivity; try discriminate.
  vm_compute. auto 10.
Qed.

(** * The lossy export *)

(** [DIV255] is division by 255 rounded to the nearest integer. *)
Lemma DIV255_nearest (x : Z) :
  0 <= x <= 65025 ->
  0 <= DIV255 x <= 255 /\ -127 <= 255 * DIV255 x - x <= 127.
Proof.
  intros Hx. unfold DIV255, SHIFTFORDIV255. cbv zeta.
  rewrite !Z.shiftr_div_pow2 by lia. change (2 ^ 8) with 256.
  pose proof (Z.div_mod (x + 128) 256 ltac:(lia)) as H1.
  pose proof (Z.mod_pos_bound (x + 128) 256 ltac:(lia)) as H2.
  set (q := (x + 128) / 256) in *. set (s := (x + 128) mod 256) in *.
  pose proof (Z.div_mod (q + (x + 128)) 256 ltac:(lia)) as H3.
  pose proof (Z.mod_pos_bound (q + (x + 128)) 256 ltac:(lia)) as H4.
  set (r := (q + (x + 128)) / 256) in *. set (t := (q + (x + 128)) mod 256) in *.
  lia.
Qed.

(** A band blended onto white is the nearest integer to
    [(fg * a + 255 * (255 - a)) / 255], and a byte. *)
Lemma blend_on_white (fg a : Z) :
  0 <= fg <= 255 -> 0 <= a <= 255 ->
  let c := UINT8 (BLEND8 a 255 fg) in
  0 <= c <= 255 /\ Z.abs (255 * c - (fg * a + 255 * (255 - a))) <= 127.
Proof.
  intros Hfg Ha. cbv zeta. unfold BLEND8.
  assert (Hx : 0 <= 255 * (255 - a) + fg * a <= 65025) by nia.
  destruct (DIV255_nearest _ Hx) as [Hr Hn].
  unfold UINT8. rewrite Z.mod_small by lia. split; [lia|].
  apply Z.abs_le. lia.
Qed.

Lemma paste_white_data (d : list Pixel) :
  Forall (fun px => List.length px = 4%nat) d ->
  map (fun oim => paste_pixel (fst (fst oim)) (snd (fst oim)) (snd oim))
      (combine (combine (repeat [255; 255; 255] (List.length d)) d)
               (map (fun px => [nth 3 px 0]) d))
  = map flatten_pixel d.
Proof.
  induction 1 as [|px d Hpx _ IH]; [reflexivity|].
  cbn [List.length repeat combine map]. rewrite IH. f_equal.
  destruct px as [|r [|g [|b [|a [|? ?]]]]]; try discriminate Hpx.
  reflexivity.
Qed.

Lemma wf_image_data (im : Image) :
  wf_image im = true ->
  Z.to_nat (fst (size im) * snd (size im)) = List.length (data im) /\
  Forall (fun px => List.length px = nbands (mode im)
                    /\ Forall (fun v => 0 <= v <= 255) px) (data im).
Proof.
  unfold wf_image. intros H.
  apply andb_true_iff in H as [H Hd]. apply andb_true_iff in H as [H Hl].
  apply Z.eqb_eq in Hl. split; [lia|].
  apply Forall_forall. intros px Hin.
  rewrite forallb_forall in Hd. specialize (Hd px Hin).
  apply andb_true_iff in Hd as [Hn Hb]. apply Nat.eqb_eq in Hn. split; [exact Hn|].
  apply Forall_forall. intros v Hv. rewrite forallb_forall in Hb.
  specialize (Hb v Hv). unfold is_uint8 in Hb.
  apply andb_true_iff in Hb as [H1 H2]. apply Z.leb_le in H1, H2. lia.
Qed.

(** On an ["RGBA"] image the lossy branch hands the JPEG encoder the image
    flattened onto white, with quality 95. *)
Lemma encode_RGBA_lossy (env : Env) (im : Image) :
  mode im = RGBA -> wf_image im = true ->
  encode env im (save_format (format_str JPG))
  = Image_save env (flattened im) "JPEG" (Some 95).
Proof.
  intros Hm Hwf. destruct (wf_image_data im Hwf) as [Hlen Hpx].
  unfold encode. change (save_format (format_str JPG)) with "JPEG".
  rewrite Hm. cbn [String.eqb Ascii.eqb Bool.eqb mode_str].
  unfold PIL.split. rewrite Hm. cbn [nbands seq map tuple_index nth_error result_bind].
  unfold paste, PIL.new, getband. cbn [size data].
  unfold size_eqb. rewrite !Z.eqb_refl. cbn [andb result_bind mode].
  rewrite Hlen. rewrite paste_white_data; [reflexivity|].
  rewrite Hm in Hpx. eapply Forall_impl; [|exact Hpx]. intros px [H _]. exact H.
Qed.

(** The flattened image has no alpha band and every one of its bands is the
    nearest integer to the source band composited over white. *)
Lemma flattened_pixels (im : Image) :
  mode im = RGBA -> wf_image im = true ->
  has_alpha (mode (flattened im)) = false /\
  size (flattened im) = size im /\
  Forall2 (fun px out =>
             exists r g b a cr cg cb,
               px = [r; g; b; a] /\ out = [cr; cg; cb] /\
               Z.abs (255 * cr - (r * a + 255 * (255 - a))) <= 127 /\
               Z.abs (255 * cg - (g * a + 255 * (255 - a))) <= 127 /\
               Z.abs (255 * cb - (b * a + 255 * (255 - a))) <= 127 /\
               0 <= cr <= 255 /\ 0 <= cg <= 255 /\ 0 <= cb <= 255)
          (data im) (data (flattened im)).
Proof.
  intros Hm Hwf. destruct (wf_image_data im Hwf) as [_ Hpx]. rewrite Hm in Hpx.
  split; [reflexivity|]. split; [reflexivity|].
  unfold flattened. cbn [data].
  induction Hpx as [|px d [Hn Hb] _ IH]; cbn [map]; constructor; [|exact IH].
  destruct px as [|r [|g [|b [|a [|? ?]]]]]; try discriminate Hn.
  inversion Hb as [|? ? Hr Hb1]; subst. inversion Hb1 as [|? ? Hg Hb2]; subst.
  inversion Hb2 as [|? ? Hbl Hb3]; subst. inversion Hb3 as [|? ? Ha _]; subst.
  destruct (blend_on_white r a Hr Ha) as [R1 R2].
  destruct (blend_on_white g a Hg Ha) as [G1 G2].
  destruct (blend_on_white b a Hbl Ha) as [B1 B2].
  exists r, g, b, a. eexists _, _, _. split; [reflexivity|].
  split; [reflexivity|]. auto 10.
Qed.

(** Without an alpha band the lossy branch encodes the image converted to
    ["RGB"], with quality 95. *)
Lemma encode_opaque_lossy (env : Env) (im : Image) :
  has_alpha (mode im) = false ->
  encode env im (save_format (format_str JPG))
  = Image_save env (convert_RGB im) "JPEG" (Some 95).
Proof.
  intros H. unfold encode. change (save_format (format_str JPG)) with "JPEG".
  destruct (mode im); try discriminate H; reflexivity.
Qed.

(** C3: the lossy branch composites over white only when the mode is
    ["RGBA"].  A grey image with alpha (mode ["LA"]) takes the other branch,
    where [convert("RGB")] drops the alpha band: its black, fully transparent
    pixel is encoded as black, 0 in every band, where compositing over white
    gives 255. *)
Theorem lossy_export_drops_grey_alpha :
  has_alpha (mode Fixture.img_clear) = true /\
  wf_image Fixture.img_clear = true /\
  Image_open Fixture.env_placeholder (content Fixture.upload_clear) = Ok Fixture.img_clear /\
  (forall env,
     encode env Fixture.img_clear (save_format (format_str JPG))
     = Image_save env (mkImage RGB (1, 1) [[0; 0; 0]]) "JPEG" (Some 95)) /\
  UINT8 (BLEND8 0 255 0) = 255 /\
  In (Col2, download_button "Download as JPG" [Byte.x00; Byte.x00; Byte.x00]
              "bg_removed_clear.jpg" "image/jpg" "download_button")
     (elements (snd (script Fixture.env_placeholder (Some Fixture.upload_clear) JPG w0))).
Proof.
  split; [reflexivity|]. split; [reflexivity|]. split; [reflexivity|].
  split; [intros env; reflexivity|]. split; [vm_compute; reflexivity|].
  rewrite script_spec. vm_compute. auto 20.
Qed.

(** * Failures and what stays on the page *)

Lemma sidebar_no_download (env : Env) :
  filter is_download_button (sidebar_elements env) = [].
Proof. unfold sidebar_elements. destruct (REMBG_AVAILABLE env); reflexivity. Qed.

Lemma download_error_distinct (e : exn) :
  (forall e', download_error e <> removal_error e') /\
  download_error e <> could_not_process /\
  download_error e <> rembg_not_found.
Proof. repeat split; try intros e'; discriminate. Qed.

(** C4, as the claim has it, at a valid upload with the library missing: a
    processed image panel is shown all the same, and a download is offered. *)
Lemma unavailable_capability_panel_shown :
  REMBG_AVAILABLE Fixture.env_placeholder = false /\
  fst (script Fixture.env_placeholder (Some Fixture.upload_red) PNG w0) = Ok tt /\
  existsb is_processed_image
    (elements (snd (script Fixture.env_placeholder (Some Fixture.upload_red) PNG w0)))
  = true /\
  existsb is_download_button
    (elements (snd (script Fixture.env_placeholder (Some Fixture.upload_red) PNG w0)))
  = true.
Proof.
  rewrite script_spec. repeat split; vm_compute; reflexivity.
Qed.

(** C7: when the export raises, the run still ends normally; the processed
    image and the original stay on the page, the error element carries a
    message of its own, unlike those of a failed removal, and no download
    button is drawn. *)
Theorem encode_failure_keeps_result :
  forall env u c w img out e,
    Reachable env w ->
    Image_open env (content u) = Ok img ->
    fst (remove_background_from_bytes env img w) = Ok (Some out) ->
    encode env out (save_format (format_str c)) = Raise e ->
    let r := script env (Some u) c w in
    fst r = Ok tt /\
    shows (snd r) Col1 (image img "Your Upload") /\
    shows (snd r) Col2 (image out "Processed Image") /\
    shows (snd r) Col2 (error ("Error preparing download: " ++ e)) /\
    filter is_download_button (elements (snd r)) = [] /\
    (forall e', "Error preparing download: " ++ e
                <> "Error during background removal: " ++ e') /\
    "Error preparing download: " ++ e <> could_not_process.
Proof.
  intros env u c w img out e Hreach Hopen Hout Henc. cbv zeta.
  pose proof (reachable_inv env w Hreach) as Hinv.
  destruct (served_elements env img w Hinv) as [Hrep | [msg Hrep]];
    destruct Hinv as [Hel _];
    rewrite adapter_value in Hout; injection Hout as Hout;
    rewrite script_spec, Hopen; cbn [fst snd]; unfold shows; cbn [elements];
    rewrite Hout, Hrep, Hel; unfold result_elements, download_elements;
    rewrite Henc;
    (split; [reflexivity|]);
    (split; [cbn; auto 10|]);
    (split; [cbn; auto 20|]);
    (split; [cbn; auto 20|]);
    (split; [rewrite !filter_app, sidebar_no_download; reflexivity|]);
    (split; [intros e'|]; discriminate).
Qed.

Lemma encode_failure_keeps_result_witness :
  let r := script Fixture.env_broken_save (Some Fixture.upload_red) JPG w0 in
  fst r = Ok tt /\
  shows (snd r) Col1 (image Fixture.img_red "Your Upload") /\
  shows (snd r) Col2 (image Fixture.img_cutout "Processed Image") /\
  shows (snd r) Col2 (error ("Error preparing download: " ++ "encoder error")) /\
  filter is_download_button (elements (snd r)) = [] /\
  (forall e', "Error preparing download: " ++ "encoder error"
              <> "Error during background removal: " ++ e') /\
  "Error preparing download: " ++ "encoder error" <> could_not_process.
Proof.
  apply (encode_failure_keeps_result
           Fixture.env_broken_save Fixture.upload_red JPG w0
           Fixture.img_red Fixture.img_cutout "encoder error").
  - apply Reachable_start.
  - reflexivity.
  - reflexivity.
  - reflexivity.
Defined.

(** * The lossless export *)

(** The lossless branch is the PNG encoder on the image as it is, whatever
    its mode: nothing is converted or flattened and no quality is passed.
    What the encoder writes, and what a decoder reads back from it, is
    Pillow's. *)
Lemma encode_lossless (env : Env) (im : Image) :
  encode env im (save_format (format_str PNG)) = Image_save env im "PNG" None.
Proof. reflexivity. Qed.

(** * More on the download name *)

Lemma splitext_without_dot (p : string) :
  occurs "." p = false -> OsPath.splitext p = (p, "").
Proof.
  intros H. unfold OsPath.splitext, OsPath._splitext, PyStr.rfind.
  rewrite (rfind_from_absent p "." 0 H).
  destruct (rfind_range p "/") as [E|E]; unfold PyStr.rfind in E.
  - rewrite E. simpl. unfold PyStr.slice_to, PyStr.slice. simpl.
    rewrite substring_0_0. reflexivity.
  - destruct (PyStr.rfind_from p "/" 0 <? -1) eqn:Hlt.
    + apply Z.ltb_lt in Hlt. lia.
    + unfold PyStr.slice_to, PyStr.slice. simpl. rewrite substring_0_0. reflexivity.
Qed.

(** A name with directory separators nowhere, whose base begins with
    another character than a dot and whose last dot is followed by an
    extension, loses that extension and nothing else: dots inside the base
    stay. *)
Theorem output_filename_base_ext :
  forall (c : ascii) (base ext : string) (f : FormatChoice),
    c <> "."%char ->
    occurs "/" (String c base) = false ->
    occurs "/" ext = false ->
    occurs "." ext = false ->
    output_filename (String c base ++ "." ++ ext) (format_str f)
    = "bg_removed_" ++ String c base ++ "." ++ format_extension f.
Proof.
  intros c base ext f Hc Hb Hs He. unfold output_filename.
  rewrite (splitext_base_ext c base ext Hc Hb Hs He). destruct f; reflexivity.
Qed.

Lemma output_filename_base_ext_witness :
  output_filename ("photo.v2" ++ "." ++ "jpeg") (format_str JPG)
  = "bg_removed_" ++ "photo.v2" ++ "." ++ format_extension JPG.
Proof.
  apply (output_filename_base_ext "p" "hoto.v2" "jpeg" JPG).
  - discriminate.
  - reflexivity.
  - reflexivity.
  - reflexivity.
Defined.

Lemma only_dots_no_sep (d : string) : only_dots d = true -> occurs "/" d = false.
Proof.
  induction d as [|a d IH]; simpl; [reflexivity|].
  intros H. apply andb_true_iff in H as [Ha Hd].
  apply Ascii.eqb_eq in Ha. subst a. simpl. auto.
Qed.

Lemma only_dots_last (d : string) :
  only_dots d = true -> d <> "" ->
  exists d', d = d' ++ "." /\ only_dots d' = true.
Proof.
  induction d as [|a d IH]; [intros _ H; contradiction|].
  simpl. intros H _. apply andb_true_iff in H as [Ha Hd].
  apply Ascii.eqb_eq in Ha. subst a.
  destruct d as [|b d].
  - exists "". split; reflexivity.
  - assert (Hne : String b d <> "") by discriminate.
    destruct (IH Hd Hne) as (d' & E & Hd').
    exists (String "." d'). rewrite E. split; [reflexivity|].
    simpl. exact Hd'.
Qed.

Lemma substring_in_dots (d t : string) (i : nat) :
  only_dots d = true -> (i < String.length d)%nat ->
  substring i 1 (d ++ t) = ".".
Proof.
  revert i; induction d as [|a d IH]; intros i H Hi; simpl in *; [lia|].
  apply andb_true_iff in H as [Ha Hd]. apply Ascii.eqb_eq in Ha. subst a.
  destruct i as [|i].
  - rewrite substring_0_0. reflexivity.
  - apply IH; [exact Hd | lia].
Qed.

Lemma skip_leading_dots_all (d t : string) (dotIndex : Z) (n i : nat) :
  only_dots d = true -> (i + n <= String.length d)%nat ->
  OsPath.skip_leading_dots (d ++ t) "." dotIndex (Z.of_nat i) n = None.
Proof.
  intros Hd. revert i; induction n as [|n IH]; intros i Hi; simpl; [reflexivity|].
  unfold PyStr.slice.
  replace (Z.to_nat (Z.of_nat i + 1 - Z.of_nat i)) with 1%nat by lia.
  rewrite Nat2Z.id, (substring_in_dots d t i Hd) by lia.
  simpl. replace (Z.of_nat i + 1) with (Z.of_nat (S i)) by lia.
  apply IH. lia.
Qed.

Lemma append_assoc (a b c : string) : (a ++ b) ++ c = a ++ (b ++ c).
Proof. induction a as [|x a IH]; simpl; [reflexivity | f_equal; exact IH]. Qed.

Lemma splitext_leading_dots (d rest : string) :
  only_dots d = true -> occurs "." rest = false -> occurs "/" rest = false ->
  OsPath.splitext (d ++ rest) = (d ++ rest, "").
Proof.
  intros Hd Hr Hs.
  destruct (string_dec d "") as [Ed|Hne].
  - subst d. simpl. apply splitext_without_dot. exact Hr.
  - destruct (only_dots_last d Hd Hne) as (d' & E & Hd'). subst d.
    rewrite append_assoc. change ("." ++ rest) with (String "." rest).
    set (p := d' ++ String "." rest).
    assert (Hdot : PyStr.rfind p "." = PyStr.len d').
    { unfold PyStr.rfind, p. rewrite rfind_from_last by (auto; lia). lia. }
    assert (Hsep : PyStr.rfind p "/" = -1).
    { unfold PyStr.rfind, p. apply rfind_from_absent.
      rewrite occurs_app, (only_dots_no_sep d' Hd'). simpl. exact Hs. }
    unfold OsPath.splitext, OsPath._splitext. fold p. rewrite Hdot, Hsep.
    assert (Hnil : PyStr.slice_to p 0 = "").
    { unfold PyStr.slice_to, PyStr.slice. simpl. apply substring_0_0. }
    destruct (-1 <? PyStr.len d') eqn:Hlt; [|rewrite Hnil; reflexivity].
    replace (Z.to_nat (PyStr.len d' - (-1 + 1))) with (String.length d')
      by (unfold PyStr.len; lia).
    change (-1 + 1) with (Z.of_nat 0).
    unfold p. rewrite (skip_leading_dots_all d' (String "." rest) _ _ 0 Hd') by lia.
    fold p. rewrite Hnil. reflexivity.
Qed.

(** A name that is dots followed by a part without dots or separators (a
    hidden file such as [.bashrc]) has no extension to lose: the download
    name keeps all of it. *)
Theorem output_filename_leading_dots :
  forall (d rest : string) (f : FormatChoice),
    only_dots d = true ->
    occurs "." rest = false ->
    occurs "/" rest = false ->
    output_filename (d ++ rest) (format_str f)
    = "bg_removed_" ++ (d ++ rest) ++ "." ++ format_extension f.
Proof.
  intros d rest f Hd Hr Hs. unfold output_filename.
  rewrite (splitext_leading_dots d rest Hd Hr Hs). destruct f; reflexivity.
Qed.

Lemma output_filename_leading_dots_witness :
  output_filename (".." ++ "bashrc") (format_str JPG)
  = "bg_removed_" ++ (".." ++ "bashrc") ++ "." ++ format_extension JPG.
Proof.
  apply (output_filename_leading_dots ".." "bashrc" JPG); reflexivity.
Defined.

(** * The process between runs *)

(** Whatever has been uploaded so far, [remove] has been called at most
    once since the process started, on a decoded upload, and the store holds
    at most one entry: what the adapter's body made of that one call. *)
Theorem remove_called_at_most_once :
  forall env w,
    Reachable env w ->
    process_inv env w /\
    (List.length (calls w) <= 1)%nat /\
    (List.length (cache w) <= 1)%nat.
Proof.
  intros env w H.
  assert (Hinv : process_inv env w).
  { induction H as [|w uf c _ [_ IH]].
    - split; [reflexivity|]. left. split; reflexivity.
    - split; [reflexivity|].
      rewrite script_spec.
      destruct uf as [u|]; [destruct (Image_open env (content u)) as [img|e] eqn:Ho|];
        cbn [rerun snd cache calls]; try exact IH.
      unfold next_cache, next_calls.
      destruct IH as [[Hc Hk] | (u0 & i0 & v & els & Hu & Hb & Hc & Hk)].
      + rewrite Hc, Hk. cbn [lookup app]. right.
        exists u, img, (fst (outcome env img)), (snd (outcome env img)).
        split; [exact Ho|]. split; [apply body_spec|]. split; reflexivity.
      + rewrite Hc, Hk. rewrite lookup_head. right.
        exists u0, i0, v, els. auto. }
  split; [exact Hinv|].
  destruct Hinv as [_ [[Hc Hk] | (u & i & v & els & _ & _ & Hc & Hk)]];
    rewrite Hc, Hk; simpl; lia.
Qed.

Lemma remove_called_at_most_once_witness :
  process_inv Fixture.env_rembg Sample.world_after_red /\
  (List.length (calls Sample.world_after_red) <= 1)%nat /\
  (List.length (cache Sample.world_after_red) <= 1)%nat.
Proof.
  apply (remove_called_at_most_once Fixture.env_rembg Sample.world_after_red).
  apply Reachable_run. apply Reachable_start.
Defined.

(** Once the store holds an entry, no run calls [remove] or changes the
    store, whatever is uploaded and whichever format is chosen; a run on an
    upload that ends without an exception shows the stored image as the
    processed one, or the failure notice when the stored result is a
    failure. *)
Theorem stored_result_is_final :
  forall env w en uf c,
    lookup None (cache w) = Some en ->
    let r := script env uf c w in
    cache (snd r) = cache w /\
    calls (snd r) = calls w /\
    match fst r, uf with
    | Ok _, Some _ =>
        match value en with
        | Some out => shows (snd r) Col2 (image out "Processed Image")
        | None => shows (snd r) Col2 (error could_not_process)
        end
    | _, _ => True
    end.
Proof.
  intros env w en uf c Hen. cbv zeta. rewrite script_spec.
  destruct uf as [u|]; [destruct (Image_open env (content u)) as [img|e]|];
    cbn [fst snd cache calls]; auto.
  unfold next_cache, next_calls, served, shows. rewrite Hen. cbn [fst snd elements].
  split; [reflexivity|]. split; [reflexivity|].
  destruct (value en) as [out|]; unfold result_elements;
    rewrite !in_app_iff; do 4 right; left.
  - left. right. left. reflexivity.
  - left. reflexivity.
Qed.

Lemma stored_result_is_final_witness :
  lookup None (cache Sample.world_after_red) = Some (mkEntry (Some Fixture.img_cutout) []) /\
  let r := script Fixture.env_rembg (Some Fixture.upload_blue) JPG Sample.world_after_red in
  cache (snd r) = cache Sample.world_after_red /\
  calls (snd r) = calls Sample.world_after_red /\
  match fst r, Some Fixture.upload_blue with
  | Ok _, Some _ =>
      match value (mkEntry (Some Fixture.img_cutout) []) with
      | Some out => shows (snd r) Col2 (image out "Processed Image")
      | None => shows (snd r) Col2 (error could_not_process)
      end
  | _, _ => True
  end.
Proof.
  assert (H : lookup None (cache Sample.world_after_red)
              = Some (mkEntry (Some Fixture.img_cutout) [])) by (vm_compute; reflexivity).
  split; [exact H|].
  exact (stored_result_is_final Fixture.env_rembg Sample.world_after_red
           (mkEntry (Some Fixture.img_cutout) []) (Some Fixture.upload_blue) JPG H).
Defined.

(** Running the script again on the same upload and format draws the same
    page, ends the same way, and leaves the store and the calls of [remove]
    as the first run left them. *)
Theorem rerun_draws_same_page :
  forall env uf c w,
    let r1 := script env uf c (rerun w) in
    let r2 := script env uf c (rerun (snd r1)) in
    fst r2 = fst r1 /\
    elements (snd r2) = elements (snd r1) /\
    cache (snd r2) = cache (snd r1) /\
    calls (snd r2) = calls (snd r1).
Proof.
  intros env uf c w. cbv zeta. rewrite !script_spec.
  destruct uf as [u|]; [destruct (Image_open env (content u)) as [img|e]|];
    cbn [fst snd rerun cache elements calls]; auto.
  unfold served, next_cache, next_calls. cbn [rerun cache calls elements].
  destruct (lookup None (cache w)) as [en|] eqn:E; cbn [rerun cache calls elements].
  - rewrite E. auto.
  - rewrite lookup_head. cbn [value replayed].
    destruct (outcome env img) as [v els]. cbn [fst snd]. auto.
Qed.

(** * What a run draws *)

Lemma outcome_failure (env : Env) (img : Image) :
  fst (outcome env img) = None ->
  exists e, snd (outcome env img) = [(Main, error (removal_error e))].
Proof.
  unfold outcome. destruct (rembg_remove env) as [f|]; [|discriminate].
  destruct (f img) as [out|e]; [discriminate|]. intros _. exists e. reflexivity.
Qed.

(** In a reachable world a failure handed back by the adapter comes with the
    error element of the failed removal. *)
Lemma served_failure (env : Env) (img : Image) (w : World) :
  cache_inv env w ->
  fst (served env img w) = None ->
  exists e, snd (served env img w) = [(Main, error (removal_error e))].
Proof.
  intros [_ H]. unfold served.
  destruct (lookup None (cache w)) as [en|] eqn:E; cbn [fst snd].
  - destruct (H en eq_refl) as (i & Hv & Hr). rewrite Hv, Hr. apply outcome_failure.
  - apply outcome_failure.
Qed.

(** The pieces a run on a decoded upload is made of, in a reachable world. *)
Lemma decoded_run_elements (env : Env) (u : UploadedFile) (c : FormatChoice)
    (w : World) (img : Image) :
  Reachable env w ->
  Image_open env (content u) = Ok img ->
  exists replay,
    (replay = [] \/ exists msg, replay = [(Main, error msg)]) /\
    script env (Some u) c w
    = (Ok tt,
       mkWorld (next_cache env img w)
         (banner ++ original_elements img ++ replay
            ++ result_elements env u c (fst (served env img w))
            ++ sidebar_elements env)
         (next_calls img w)).
Proof.
  intros Hr Ho. pose proof (reachable_inv env w Hr) as Hinv.
  exists (snd (served env img w)). split; [apply served_elements; exact Hinv|].
  rewrite script_spec, Ho. destruct Hinv as [-> _]. reflexivity.
Qed.

Ltac crush_page :=
  unfold banner, original_elements, result_elements, download_elements,
    sidebar_elements;
  repeat match goal with
         | |- context [REMBG_AVAILABLE ?e] => destruct (REMBG_AVAILABLE e)
         | |- context [encode ?e ?i ?f] => destruct (encode e i f)
         end.

(** When the removal fails, the run ends normally with the original image
    still on the page, the message of the failed removal and the notice that
    the image could not be processed; no processed image, no format
    selector and no download button are drawn. *)
Theorem removal_failure_page :
  forall env u c w img,
    Reachable env w ->
    Image_open env (content u) = Ok img ->
    fst (remove_background_from_bytes env img w) = Ok None ->
    let r := script env (Some u) c w in
    fst r = Ok tt /\
    shows (snd r) Col1 (image img "Your Upload") /\
    shows (snd r) Col2 (error could_not_process) /\
    (exists e, shows (snd r) Main (error ("Error during background removal: " ++ e))) /\
    filter is_processed_image (elements (snd r)) = [] /\
    filter is_selectbox (elements (snd r)) = [] /\
    filter is_download_button (elements (snd r)) = [].
Proof.
  intros env u c w img Hr Ho Hnone. cbv zeta.
  pose proof (reachable_inv env w Hr) as Hinv.
  rewrite adapter_value in Hnone. injection Hnone as Hnone.
  destruct (served_failure env img w Hinv Hnone) as [e He].
  rewrite script_spec, Ho. destruct Hinv as [Hel _].
  cbn [fst snd]. unfold shows. cbn [elements]. rewrite Hel, Hnone, He.
  split; [reflexivity|].
  split; [cbn; auto 10|]. split; [cbn; auto 20|].
  split; [exists e; cbn; auto 20|].
  repeat split; crush_page; reflexivity.
Qed.

Lemma removal_failure_page_witness :
  let r := script Fixture.env_failing (Some Fixture.upload_red) JPG w0 in
  fst r = Ok tt /\
  shows (snd r) Col1 (image Fixture.img_red "Your Upload") /\
  shows (snd r) Col2 (error could_not_process) /\
  (exists e, shows (snd r) Main (error ("Error during background removal: " ++ e))) /\
  filter is_processed_image (elements (snd r)) = [] /\
  filter is_selectbox (elements (snd r)) = [] /\
  filter is_download_button (elements (snd r)) = [].
Proof.
  apply (removal_failure_page Fixture.env_failing Fixture.upload_red JPG w0 Fixture.img_red).
  - apply Reachable_start.
  - reflexivity.
  - reflexivity.
Defined.

(** A run that does not stop at the decoder ends with the sidebar, and draws
    the warning about the missing library exactly when [rembg] could not be
    imported; a run that stops at the decoder draws no sidebar warning. *)
Theorem sidebar_warning_iff_unavailable :
  forall env uf c w,
    Reachable env w ->
    let r := script env uf c w in
    filter is_sidebar_warning (elements (snd r))
    = match fst r with
      | Ok _ => if REMBG_AVAILABLE env then [] else [(Sidebar, warning rembg_warning)]
      | Raise _ => []
      end.
Proof.
  intros env uf c w Hr. cbv zeta.
  destruct uf as [u|]; [destruct (Image_open env (content u)) as [img|e] eqn:Ho|].
  - destruct (decoded_run_elements env u c w img Hr Ho) as (rep & Hrep & ->).
    cbn [fst snd elements].
    destruct Hrep as [-> | [msg ->]];
      destruct (fst (served env img w)); crush_page; reflexivity.
  - rewrite script_spec, Ho. destruct (reachable_inv env w Hr) as [-> _]. reflexivity.
  - rewrite script_spec. destruct (reachable_inv env w Hr) as [-> _].
    cbn [fst snd elements]. crush_page; reflexivity.
Qed.

Lemma sidebar_warning_iff_unavailable_witness :
  let r := script Fixture.env_placeholder (Some Fixture.upload_red) PNG w0 in
  filter is_sidebar_warning (elements (snd r))
  = match fst r with
    | Ok _ =>
        if REMBG_AVAILABLE Fixture.env_placeholder then []
        else [(Sidebar, warning rembg_warning)]
    | Raise _ => []
    end.
Proof.
  apply (sidebar_warning_iff_unavailable
           Fixture.env_placeholder (Some Fixture.upload_red) PNG w0).
  apply Reachable_start.
Defined.

(** A run draws at most one processed image and at most one download
    button, never a download button without a processed image, and never a
    processed image together with the notice that the image could not be
    processed. *)
Theorem download_needs_processed_image :
  forall env uf c w,
    Reachable env w ->
    let els := elements (snd (script env uf c w)) in
    (List.length (filter is_download_button els)
     <= List.length (filter is_processed_image els))%nat /\
    (List.length (filter is_processed_image els)
     + List.length (filter is_could_not_process els) <= 1)%nat.
Proof.
  intros env uf c w Hr. cbv zeta.
  destruct uf as [u|]; [destruct (Image_open env (content u)) as [img|e] eqn:Ho|].
  - destruct (decoded_run_elements env u c w img Hr Ho) as (rep & Hrep & ->).
    cbn [snd elements].
    destruct Hrep as [-> | [msg ->]];
      destruct (fst (served env img w)); crush_page; simpl; lia.
  - rewrite script_spec, Ho. destruct (reachable_inv env w Hr) as [-> _].
    simpl. lia.
  - rewrite script_spec. destruct (reachable_inv env w Hr) as [-> _].
    cbn [snd elements]. crush_page; simpl; lia.
Qed.

Lemma download_needs_processed_image_witness :
  let els := elements (snd (script Fixture.env_rembg (Some Fixture.upload_red) JPG w0)) in
  (List.length (filter is_download_button els)
   <= List.length (filter is_processed_image els))%nat /\
  (List.length (filter is_processed_image els)
   + List.length (filter is_could_not_process els) <= 1)%nat.
Proof.
  apply (download_needs_processed_image
           Fixture.env_rembg (Some Fixture.upload_red) JPG w0).
  apply Reachable_start.
Defined.

Ltac in_page :=
  unfold shows; cbn [elements snd];
  unfold banner, original_elements;
  repeat match goal with
         | |- context [encode ?e ?i ?f] => destruct (encode e i f)
         end;
  cbn [In app];
  repeat first [left; reflexivity | right].

(** C4, amended: with the library missing the removal never fails and the
    pipeline does not halt there: the placeholder returns its argument, so
    the adapter hands back an image, the upload itself on an empty store.
    Every run on an upload that ends without an exception draws the
    placeholder's error and the warning of the sidebar, never the notice of
    a failed removal, and draws the processed image panel and the format
    selector, then the download button when the export succeeds and the
    error of the export when it does not. *)
Theorem unavailable_capability_reported_not_halted :
  forall env uf c w,
    rembg_remove env = None ->
    Reachable env w ->
    let r := script env uf c w in
    (forall img,
       exists out,
         fst (remove_background_from_bytes env img w) = Ok (Some out) /\
         (cache w = [] -> out = img)) /\
    match fst r, uf with
    | Ok _, Some u =>
        shows (snd r) Main (error rembg_not_found) /\
        shows (snd r) Sidebar (warning rembg_warning) /\
        filter is_could_not_process (elements (snd r)) = [] /\
        exists out,
          shows (snd r) Col2 (image out "Processed Image") /\
          shows (snd r) Col2
            (selectbox "Select download format" format_options "format_select") /\
          (cache w = [] -> Image_open env (content u) = Ok out) /\
          match encode env out (save_format (format_str c)) with
          | Ok buf =>
              shows (snd r) Col2
                (download_button (download_label (format_str c)) buf
                   (output_filename (name u) (format_str c)) (mime (format_str c))
                   "download_button")
          | Raise e => shows (snd r) Col2 (error (download_error e))
          end
    | Ok _, None =>
        shows (snd r) Sidebar (warning rembg_warning) /\
        filter is_processed_image (elements (snd r)) = []
    | Raise _, _ => True
    end.
Proof.
  intros env uf c w Hnone Hreach. cbv zeta.
  destruct (reachable_inv env w Hreach) as [Hel Hinv].
  assert (Hav : REMBG_AVAILABLE env = false)
    by (unfold REMBG_AVAILABLE; rewrite Hnone; reflexivity).
  assert (Hs : forall img, exists out,
             served env img w = (Some out, [(Main, error rembg_not_found)]) /\
             (cache w = [] -> out = img)).
  { intros img. unfold served. destruct (lookup None (cache w)) as [en|] eqn:E.
    - destruct (Hinv en eq_refl) as (i & Hv & Hr).
      unfold outcome in Hv, Hr. rewrite Hnone in Hv, Hr. cbn [fst snd] in Hv, Hr.
      exists i. rewrite Hv, Hr. split; [reflexivity|].
      intros Hc. rewrite Hc in E. discriminate.
    - unfold outcome. rewrite Hnone. exists img. auto. }
  split.
  { intros img. destruct (Hs img) as (out & E & Ho). exists out.
    rewrite adapter_value, E. auto. }
  rewrite script_spec.
  destruct uf as [u|]; [destruct (Image_open env (content u)) as [img|e] eqn:Hopen|];
    cbn [fst snd]; rewrite ?Hel.
  - destruct (Hs img) as (out & E & Ho). rewrite E. cbn [fst snd].
    unfold result_elements, download_elements, sidebar_elements. rewrite Hav.
    split; [in_page|]. split; [in_page|].
    split; [destruct (encode env out (save_format (format_str c))); reflexivity|].
    exists out. split; [in_page|]. split; [in_page|].
    split; [intros Hc; rewrite (Ho Hc); reflexivity|].
    destruct (encode env out (save_format (format_str c))); in_page.
  - exact I.
  - unfold sidebar_elements. rewrite Hav. split; [in_page | reflexivity].
Qed.

Lemma unavailable_capability_reported_not_halted_witness :
  let r := script Fixture.env_placeholder (Some Fixture.upload_red) JPG w0 in
  (forall img,
     exists out,
       fst (remove_background_from_bytes Fixture.env_placeholder img w0) = Ok (Some out) /\
       (cache w0 = [] -> out = img)) /\
  match fst r, Some Fixture.upload_red with
  | Ok _, Some u =>
      shows (snd r) Main (error rembg_not_found) /\
      shows (snd r) Sidebar (warning rembg_warning) /\
      filter is_could_not_process (elements (snd r)) = [] /\
      exists out,
        shows (snd r) Col2 (image out "Processed Image") /\
        shows (snd r) Col2
          (selectbox "Select download format" format_options "format_select") /\
        (cache w0 = [] -> Image_open Fixture.env_placeholder (content u) = Ok out) /\
        match encode Fixture.env_placeholder out (save_format (format_str JPG)) with
        | Ok buf =>
            shows (snd r) Col2
              (download_button (download_label (format_str JPG)) buf
                 (output_filename (name u) (format_str JPG)) (mime (format_str JPG))
                 "download_button")
        | Raise e => shows (snd r) Col2 (error (download_error e))
        end
  | Ok _, None =>
      shows (snd r) Sidebar (warning rembg_warning) /\
      filter is_processed_image (elements (snd r)) = []
  | Raise _, _ => True
  end.
Proof.
  apply (unavailable_capability_reported_not_halted
           Fixture.env_placeholder (Some Fixture.upload_red) JPG w0).
  - reflexivity.
  - apply Reachable_start.
Defined.

(** * More on the lossy export *)

(** For an ["RGBA"] image the JPEG encoder is handed, with quality 95, an
    ["RGB"] image of the same size in which every band is the nearest
    integer to the source band composited over white with the pixel's alpha;
    an opaque pixel keeps its colour exactly and a fully transparent one
    becomes white. *)
Theorem lossy_export_composites_RGBA :
  forall env im,
    mode im = RGBA ->
    wf_image im = true ->
    exists rgb,
      encode env im (save_format (format_str JPG)) = Image_save env rgb "JPEG" (Some 95) /\
      mode rgb = RGB /\
      size rgb = size im /\
      Forall2 (fun px out =>
                 exists r g b a cr cg cb,
                   px = [r; g; b; a] /\ out = [cr; cg; cb] /\
                   Z.abs (255 * cr - (r * a + 255 * (255 - a))) <= 127 /\
                   Z.abs (255 * cg - (g * a + 255 * (255 - a))) <= 127 /\
                   Z.abs (255 * cb - (b * a + 255 * (255 - a))) <= 127 /\
                   (a = 255 -> out = [r; g; b]) /\
                   (a = 0 -> out = [255; 255; 255]))
              (data im) (data rgb).
Proof.
  intros env im Hm Hwf. exists (flattened im).
  split; [apply encode_RGBA_lossy; assumption|].
  destruct (flattened_pixels im Hm Hwf) as (_ & Hs & Hpx).
  split; [reflexivity|]. split; [exact Hs|].
  induction Hpx as [|px out d d' H _ IH]; constructor; [|exact IH].
  destruct H as (r & g & b & a & cr & cg & cb & -> & -> & Hr & Hg & Hb & _).
  exists r, g, b, a, cr, cg, cb.
  apply Z.abs_le in Hr, Hg, Hb.
  repeat split; try (apply Z.abs_le; lia).
  - intros ->. repeat f_equal; lia.
  - intros ->. repeat f_equal; lia.
Qed.

Lemma lossy_export_composites_RGBA_witness :
  exists rgb,
    encode Fixture.env_rembg Sample.img_glass (save_format (format_str JPG))
      = Image_save Fixture.env_rembg rgb "JPEG" (Some 95) /\
    mode rgb = RGB /\
    size rgb = size Sample.img_glass /\
    Forall2 (fun px out =>
               exists r g b a cr cg cb,
                 px = [r; g; b; a] /\ out = [cr; cg; cb] /\
                 Z.abs (255 * cr - (r * a + 255 * (255 - a))) <= 127 /\
                 Z.abs (255 * cg - (g * a + 255 * (255 - a))) <= 127 /\
                 Z.abs (255 * cb - (b * a + 255 * (255 - a))) <= 127 /\
                 (a = 255 -> out = [r; g; b]) /\
                 (a = 0 -> out = [255; 255; 255]))
            (data Sample.img_glass) (data rgb).
Proof.
  apply (lossy_export_composites_RGBA Fixture.env_rembg Sample.img_glass).
  - reflexivity.
  - reflexivity.
Defined.

Lemma wf_image_intro (im : Image) :
  0 <= fst (size im) -> 0 <= snd (size im) ->
  Z.of_nat (List.length (data im)) = fst (size im) * snd (size im) ->
  Forall (fun px => List.length px = nbands (mode im)
                    /\ Forall (fun v => 0 <= v <= 255) px) (data im) ->
  wf_image im = true.
Proof.
  intros Hw Hh Hl Hd. unfold wf_image.
  repeat (apply andb_true_iff; split).
  - apply Z.leb_le; exact Hw.
  - apply Z.leb_le; exact Hh.
  - apply Z.eqb_eq; exact Hl.
  - apply forallb_forall. intros px Hin.
    rewrite Forall_forall in Hd. destruct (Hd px Hin) as [Hn Hb].
    apply andb_true_iff; split; [apply Nat.eqb_eq; exact Hn|].
    apply forallb_forall. intros v Hv. rewrite Forall_forall in Hb.
    specialize (Hb v Hv). unfold is_uint8.
    apply andb_true_iff; split; apply Z.leb_le; lia.
Qed.

Lemma wf_image_size (im : Image) :
  wf_image im = true ->
  0 <= fst (size im) /\ 0 <= snd (size im) /\
  Z.of_nat (List.length (data im)) = fst (size im) * snd (size im).
Proof.
  unfold wf_image. intros H.
  apply andb_true_iff in H as [H _]. apply andb_true_iff in H as [H Hl].
  apply andb_true_iff in H as [Hw Hh].
  apply Z.leb_le in Hw, Hh. apply Z.eqb_eq in Hl. auto.
Qed.

Lemma UINT8_range (x : Z) : 0 <= UINT8 x <= 255.
Proof. unfold UINT8. pose proof (Z.mod_pos_bound x 256 ltac:(lia)). lia. Qed.

Lemma flattened_wf (im : Image) :
  mode im = RGBA -> wf_image im = true -> wf_image (flattened im) = true.
Proof.
  intros Hm Hwf. destruct (wf_image_size im Hwf) as (Hw & Hh & Hl).
  destruct (wf_image_data im Hwf) as [_ Hpx]. rewrite Hm in Hpx.
  apply wf_image_intro; cbn [flattened size data mode nbands]; try assumption.
  - rewrite length_map. exact Hl.
  - apply Forall_map. eapply Forall_impl; [|exact Hpx].
    intros px [Hn _].
    destruct px as [|r [|g [|b [|a [|? ?]]]]]; try discriminate Hn.
    split; [reflexivity|].
    unfold flatten_pixel. cbn [firstn map].
    repeat (constructor; [apply UINT8_range|]). constructor.
Qed.

Lemma convert_RGB_wf (im : Image) :
  wf_image im = true -> wf_image (convert_RGB im) = true.
Proof.
  intros Hwf. destruct (wf_image_size im Hwf) as (Hw & Hh & Hl).
  destruct (wf_image_data im Hwf) as [_ Hpx].
  apply wf_image_intro; cbn [convert_RGB size data mode nbands]; try assumption.
  - rewrite length_map. exact Hl.
  - apply Forall_map. eapply Forall_impl; [|exact Hpx].
    intros px [Hn Hb].
    destruct (mode im); cbn [nbands] in Hn; cbn [convert_RGB_pixel].
    + destruct px as [|v [|? ?]]; try discriminate Hn.
      inversion Hb; subst. split; [reflexivity|]. cbn [nth]. auto.
    + destruct px as [|v [|a [|? ?]]]; try discriminate Hn.
      inversion Hb; subst. split; [reflexivity|]. cbn [nth]. auto.
    + split; assumption.
    + destruct px as [|r [|g [|b [|a [|? ?]]]]]; try discriminate Hn.
      inversion Hb as [|? ? Hr H1]; subst. inversion H1 as [|? ? Hg H2]; subst.
      inversion H2 as [|? ? Hbl H3]; subst.
      split; [reflexivity|]. cbn [nth]. auto.
Qed.

(** For a processed image in one of the four modes of [PIL.Mode] (["L"],
    ["LA"], ["RGB"], ["RGBA"]), the JPEG encoder is handed a well-formed
    ["RGB"] image of the same size, with quality 95: in these modes it never
    receives an alpha band, and the split and paste of the ["RGBA"] branch
    never raise on a well-formed image. *)
Theorem lossy_export_image_is_RGB :
  forall env im,
    wf_image im = true ->
    exists rgb,
      encode env im (save_format (format_str JPG)) = Image_save env rgb "JPEG" (Some 95) /\
      mode rgb = RGB /\
      size rgb = size im /\
      wf_image rgb = true.
Proof.
  intros env im Hwf.
  destruct (Mode_eq_dec (mode im) RGBA) as [Hm|Hm].
  - exists (flattened im). split; [apply encode_RGBA_lossy; assumption|].
    split; [reflexivity|]. split; [reflexivity|]. apply flattened_wf; assumption.
  - exists (convert_RGB im). split.
    + unfold encode. change (save_format (format_str JPG)) with "JPEG".
      destruct (mode im); try reflexivity. contradiction Hm. reflexivity.
    + split; [reflexivity|]. split; [reflexivity|]. apply convert_RGB_wf; assumption.
Qed.

Lemma lossy_export_image_is_RGB_witness :
  exists rgb,
    encode Fixture.env_rembg Fixture.img_clear (save_format (format_str JPG))
      = Image_save Fixture.env_rembg rgb "JPEG" (Some 95) /\
    mode rgb = RGB /\
    size rgb = size Fixture.img_clear /\
    wf_image rgb = true.
Proof.
  apply (lossy_export_image_is_RGB Fixture.env_rembg Fixture.img_clear).
  reflexivity.
Defined.

(** An ["RGB"] image reaches the JPEG encoder as it is. *)
Theorem lossy_export_RGB_unchanged :
  forall env im,
    mode im = RGB ->
    encode env im (save_format (format_str JPG)) = Image_save env im "JPEG" (Some 95).
Proof.
  intros env im Hm. rewrite encode_opaque_lossy by (rewrite Hm; reflexivity).
  f_equal. destruct im as [m sz d]. cbn in Hm. subst m.
  unfold convert_RGB. cbn [mode size data convert_RGB_pixel]. f_equal.
  apply map_id.
Qed.

Lemma lossy_export_RGB_unchanged_witness :
  encode Fixture.env_rembg Fixture.img_red (save_format (format_str JPG))
  = Image_save Fixture.env_rembg Fixture.img_red "JPEG" (Some 95).
Proof.
  apply (lossy_export_RGB_unchanged Fixture.env_rembg Fixture.img_red).
  reflexivity.
Defined.

(** * The first call of the adapter *)

(** On an empty store the memoized adapter behaves as its body: it calls
    [remove] once, on its argument, returns what the body returns for that
    argument, draws what the body draws, and stores that one result. *)
Theorem first_call_runs_body :
  forall env img w,
    cache w = [] ->
    let r := remove_background_from_bytes env img w in
    let b := remove_background_from_bytes_body env img w in
    fst r = fst b /\
    elements (snd r) = elements (snd b) /\
    calls (snd r) = (calls w ++ [img])%list /\
    exists v els,
      fst b = Ok v /\
      elements (snd b) = (elements w ++ els)%list /\
      cache (snd r) = [(None, mkEntry v els)].
Proof.
  intros env img w Hc. cbv zeta. rewrite adapter_spec, body_spec.
  unfold served, next_cache, next_calls. rewrite Hc. cbn [lookup fst snd elements calls cache].
  split; [reflexivity|]. split; [reflexivity|]. split; [reflexivity|].
  exists (fst (outcome env img)), (snd (outcome env img)). auto.
Qed.

Lemma first_call_runs_body_witness :
  let r := remove_background_from_bytes Fixture.env_rembg Fixture.img_blue w0 in
  let b := remove_background_from_bytes_body Fixture.env_rembg Fixture.img_blue w0 in
  fst r = fst b /\
  elements (snd r) = elements (snd b) /\
  calls (snd r) = (calls w0 ++ [Fixture.img_blue])%list /\
  exists v els,
    fst b = Ok v /\
    elements (snd b) = (elements w0 ++ els)%list /\
    cache (snd r) = [(None, mkEntry v els)].
Proof.
  apply (first_call_runs_body Fixture.env_rembg Fixture.img_blue w0).
  reflexivity.
Defined.
